(** * points_shape_detect/Module/trainer.py : the training orchestrator

    A shallow embedding of [Trainer] (checkpoint load and save, the two decay
    schedules, one training step, the epoch loop) and the properties of its
    checkpoint lifecycle, best-model tracking and epoch ordering.

    Conventions.
    - A float is an IEEE 754 value as the Standard Library specifies them
      ([spec_float]); the tensors of the losses hold binary32 values and
      comparisons are those of IEEE 754.
    - [torch.sum] and [torch.mean] belong to the tensor library, which fixes
      neither the order in which a reduction associates nor, through it, the
      rounding of the result: the trainer takes them as a parameter
      ([Torch]). [Float32] is the binary32 arithmetic of concrete runs.
    - The learning rate and the batch-norm momentum are real numbers, since
      the schedules raise a constant to a fractional power.
    - The file system is a finite map from paths to files, together with the
      list of the primitive operations performed on it. The primitives are
      those of a run in which the file system does not fail: a failing
      write, removal or rename raises and ends the process, and no property
      below speaks of such a run.
    - The network, the optimiser update and the tensor reductions are
      collaborators outside this module: they are Section variables. *)

From Stdlib Require Import Reals Lra QArith Ascii String.
From Stdlib Require Import Floats.SpecFloat.
From stdpp Require Import gmap strings list fin_maps pretty.

Set Default Proof Using "Type".

(** ** Floats *)

(** The values of Python floats and of the elements of float tensors. *)
Definition pyfloat : Type := spec_float.

(** [float('inf')] *)
Definition inf : pyfloat := S754_infinity false.

(** [a < b] on floats: the comparison of IEEE 754, false as soon as one side
    is NaN. *)
Definition flt (a b : pyfloat) : bool := SFltb a b.

(** The binary32 value of an integer literal such as [5.0]. *)
Definition fin_of_Z (z : Z) : pyfloat := binary_normalize 24 128 z 0 false.



(** ** Tensors *)

Record tensor : Type := Tensor { shape : list nat; data : list pyfloat }.

(** [loss.reshape(1)] on a zero-dimensional tensor. *)
Definition reshape1 (t : tensor) : tensor := Tensor [1] (data t).

(** [loss if len(loss.shape) > 0 else loss.reshape(1)] *)
Definition at_least_1d (t : tensor) : tensor :=
  if (0 <? length (shape t))%nat then t else reshape1 t.

Definition list_nat_eqb (a b : list nat) : bool := bool_decide (a = b).

(** torch.cat skips the one-dimensional empty tensors (shape [0]). *)
Definition legacy_empty (t : tensor) : bool := list_nat_eqb (shape t) [0].

(** The shape of [torch.cat] along dimension 0: the tensors other than the
    skipped ones must have a first dimension and agree on the remaining ones;
    [None] where torch raises (no tensor at all, a zero-dimensional tensor,
    or a mismatch of the trailing dimensions). *)
Definition cat_shape (ts : list tensor) : option (list nat) :=
  match ts with
  | [] => None
  | _ :: _ =>
      match List.filter (fun t => negb (legacy_empty t)) ts with
      | [] => Some [0]
      | t :: rest =>
          match shape t with
          | [] => None
          | n :: dims =>
              if forallb (fun u => match shape u with
                                   | [] => false
                                   | _ :: d => list_nat_eqb d dims
                                   end) rest
              then Some (foldr (fun u acc => (hd 0 (shape u) + acc)%nat) n rest
                         :: dims)
              else None
          end
      end
  end.

(** [torch.cat(ts)] *)
Definition torch_cat (ts : list tensor) : option tensor :=
  match cat_shape ts with
  | None => None
  | Some sh => Some (Tensor sh (concat (map data ts)))
  end.

(** [torch.sum] and [torch.mean]: the reductions of the tensor library. *)
Record Torch : Type := MkTorch {
  torch_sum : tensor -> pyfloat;
  torch_mean : tensor -> pyfloat
}.

(** The loss map of the model: a dict, in insertion order. *)
Definition LossMap : Type := list (string * tensor).

(** lines 158-161 *)
Definition losses_tensor (losses : LossMap) : option tensor :=
  torch_cat (map (fun kv => at_least_1d (snd kv)) losses).

(** lines 158-164: the aggregate loss of a loss map. *)
Definition loss_sum (torch : Torch) (losses : LossMap) : option pyfloat :=
  match losses_tensor losses with
  | None => None
  | Some t => Some (torch_sum torch t)
  end.


(** ** Binary32 arithmetic

    Addition and division round to nearest, ties to even. [sum] reduces in
    index order, one of the orders [torch.sum] may take; on a tensor of at
    most two elements the order changes at most the sign of a zero. *)

Module Float32.

Definition add : pyfloat -> pyfloat -> pyfloat := SFadd 24 128.

Definition div : pyfloat -> pyfloat -> pyfloat := SFdiv 24 128.

Definition sum (t : tensor) : pyfloat :=
  fold_left add (data t) (S754_zero false).

(** The sum divided by the number of elements; NaN for no element. *)
Definition mean (t : tensor) : pyfloat :=
  div (sum t) (fin_of_Z (Z.of_nat (length (data t)))).

Definition kernel : Torch := MkTorch sum mean.

End Float32.

(** ** Paths *)

(** [s.split(sep)[0]]: the part of [s] before the first occurrence of [sep]
    (all of [s] when there is none). *)
Fixpoint split_head (sep s : string) : string :=
  if String.prefix sep s then EmptyString
  else match s with
       | EmptyString => EmptyString
       | String c s' => String c (split_head sep s')
       end.

(** lines 110-111 *)
Definition tmp_path (save_model_file_path : string) : string :=
  split_head ".pth" save_model_file_path +:+ "_tmp.pth".

Definition best_path (log_folder_name : string) : string :=
  "./output/" +:+ log_folder_name +:+ "/model_best.pth".

Definition last_path (log_folder_name : string) : string :=
  "./output/" +:+ log_folder_name +:+ "/model_last.pth".

Definition log_dir_of (log_folder_name : string) : string :=
  "./logs/" +:+ log_folder_name +:+ "/".

(** ** Exceptions *)

Inductive exn : Type :=
| AttributeError      (* a method called on None *)
| RuntimeError        (* torch.cat on tensors that do not fit;
                         torch.load on a file that is not a whole bundle *)
| FileNotFoundError.  (* renaming a file that is not there *)

Inductive Res (A : Type) : Type :=
| Ok (a : A)
| Raise (e : exn).
Arguments Ok {A} a.
Arguments Raise {A} e.

#[export] Instance Res_ret : MRet Res := fun _ a => Ok a.
#[export] Instance Res_bind : MBind Res := fun _ _ f m =>
  match m with
  | Ok a => f a
  | Raise e => Raise e
  end.

(** ** Configuration constants (lines 47-55) *)

Definition lr : R := (5 / 10000)%R.
Definition weight_decay : R := (5 / 10000)%R.
Definition decay_step : nat := 21.
Definition lr_decay : R := (76 / 100)%R.
Definition lowest_decay : R := (2 / 100)%R.
Definition bn_decay_step : nat := 21.
Definition bn_decay : R := (5 / 10)%R.
Definition bn_momentum : R := (9 / 10)%R.
Definition bn_lowest_decay : R := (1 / 100)%R.

(** lines 63-64: [e / self.decay_step] is Python's true division and [**]
    on a positive base the real power. *)
Definition lr_lambda (e : nat) : R :=
  Rmax (Rpower lr_decay (INR e / INR decay_step)) lowest_decay.

(** lines 66-68 *)
Definition bnm_lambda (e : nat) : R :=
  Rmax (bn_momentum * Rpower bn_decay (INR e / INR bn_decay_step))
       bn_lowest_decay.

(** line 184 *)
Definition total_epoch : nat := Z.to_nat 10000000.

(** ** The scalar log *)

Inductive logval : Type :=
| LossVal (v : pyfloat)
| RealVal (r : R).

Record Scalar : Type := MkScalar {
  tag : string;
  scalar_value : logval;
  global_step : nat
}.

Record SummaryWriter : Type := MkWriter {
  log_dir : string;
  scalars : list Scalar
}.

(** [SummaryWriter(dir)]: a new stream, nothing logged yet. *)
Definition new_writer (dir : string) : SummaryWriter := MkWriter dir [].

(** ** The trainer and the world it runs in *)

Section Trainer.

(** [Weights] is what [model.state_dict()] holds, [OptState] the buffers of
    AdamW, [Batch] one batch of the data loader together with the random
    choices of [seprate_point_cloud]. *)
Context {Weights OptState Batch : Type}.

(** [torch.sum] and [torch.mean] as the tensor library computes them. *)
Variable torch : Torch.

(** [self.model(data)] in training mode under a batch-norm momentum: the
    state after the pass (the running statistics move) and the loss map. *)
Variable forward : Weights -> R -> Batch -> Weights * LossMap.

(** [loss_sum.backward(); self.optimizer.step()] at a learning rate. *)
Variable optimizer_step :
  R -> Weights -> OptState -> Batch -> Weights * OptState.

(** [optimizer.state_dict()]: the buffers and the parameter group. *)
Record Optimizer : Type := MkOptimizer {
  opt_state : OptState;
  opt_lr : R;
  opt_initial_lr : R
}.

(** The dict of lines 100-106. *)
Record Checkpoint : Type := MkCheckpoint {
  ck_model : Weights;
  ck_optimizer : Optimizer;
  ck_step : nat;
  ck_loss_min : pyfloat;
  ck_log_folder_name : string
}.

(** A file is a whole bundle, or what an interrupted write left of one. *)
Inductive file : Type :=
| Complete (c : Checkpoint)
| Truncated (c : Checkpoint).

Inductive FsOp : Type :=
| OpMkdir (p : string)
| OpWrite (p : string)
| OpRemove (p : string)
| OpRename (src dst : string).

Record World : Type := MkWorld {
  files : gmap string file;
  oplog : list FsOp
}.

Record Trainer : Type := MkTrainer {
  model : Weights;
  model_bn_momentum : R;
  optimizer : Optimizer;
  scheduler_last_epoch : nat;
  bn_scheduler_last_epoch : nat;
  step : nat;
  loss_min : pyfloat;
  log_folder_name : string;
  summary_writer : option SummaryWriter
}.

Definition set_model (m : Weights) (t : Trainer) : Trainer :=
  MkTrainer m (model_bn_momentum t) (optimizer t) (scheduler_last_epoch t)
    (bn_scheduler_last_epoch t) (step t) (loss_min t) (log_folder_name t)
    (summary_writer t).

Definition set_optimizer (o : Optimizer) (t : Trainer) : Trainer :=
  MkTrainer (model t) (model_bn_momentum t) o (scheduler_last_epoch t)
    (bn_scheduler_last_epoch t) (step t) (loss_min t) (log_folder_name t)
    (summary_writer t).

Definition set_step (n : nat) (t : Trainer) : Trainer :=
  MkTrainer (model t) (model_bn_momentum t) (optimizer t)
    (scheduler_last_epoch t) (bn_scheduler_last_epoch t) n (loss_min t)
    (log_folder_name t) (summary_writer t).

Definition set_loss_min (l : pyfloat) (t : Trainer) : Trainer :=
  MkTrainer (model t) (model_bn_momentum t) (optimizer t)
    (scheduler_last_epoch t) (bn_scheduler_last_epoch t) (step t) l
    (log_folder_name t) (summary_writer t).

Definition set_log_folder_name (s : string) (t : Trainer) : Trainer :=
  MkTrainer (model t) (model_bn_momentum t) (optimizer t)
    (scheduler_last_epoch t) (bn_scheduler_last_epoch t) (step t)
    (loss_min t) s (summary_writer t).

Definition set_summary_writer (sw : option SummaryWriter) (t : Trainer)
  : Trainer :=
  MkTrainer (model t) (model_bn_momentum t) (optimizer t)
    (scheduler_last_epoch t) (bn_scheduler_last_epoch t) (step t)
    (loss_min t) (log_folder_name t) sw.

(** Modelled from the spec: BNMomentumScheduler (Scheduler/bn_momentum.py is
    not among the sources) is a controller that sets the momentum of the
    model to the value of its function at the epoch index; at construction
    the index is 0. *)
Definition bn_scheduler_init (bnm : nat -> R) : nat * R := (0%nat, bnm 0%nat).

(** Modelled from the spec: getCurrentTime (Method/time.py is not among the
    sources) derives the namespace of a run from the wall-clock instant at
    which the trainer is constructed, so that runs constructed at different
    instants get different namespaces. The instant is a count of clock
    ticks, the namespace its decimal rendering. *)
Definition getCurrentTime (clock : N) : string := pretty clock.

(** lines 36-71. [w0] is the state of the new [PointsShapeNet()], [o0] that
    of the new AdamW, [now] the value of [getCurrentTime()]. LambdaLR records
    [initial_lr] and takes its first step at construction: epoch 0. *)
Definition init (w0 : Weights) (o0 : OptState) (now : string) : Trainer :=
  {| model := w0;
     model_bn_momentum := snd (bn_scheduler_init bnm_lambda);
     optimizer := MkOptimizer o0 (lr * lr_lambda 0)%R lr;
     scheduler_last_epoch := 0;
     bn_scheduler_last_epoch := fst (bn_scheduler_init bnm_lambda);
     step := 0;
     loss_min := inf;
     log_folder_name := now;
     summary_writer := None |}.

(** lines 73-76 *)
Definition loadSummaryWriter (t : Trainer) : Trainer :=
  set_summary_writer (Some (new_writer (log_dir_of (log_folder_name t)))) t.

(** [self.summary_writer.add_scalar(tag, value, step)]: on None the
    attribute lookup raises before anything is logged. *)
Definition add_scalar (tg : string) (v : logval) (st : nat) (t : Trainer)
  : Res Trainer :=
  match summary_writer t with
  | None => Raise AttributeError
  | Some sw =>
      Ok (set_summary_writer
            (Some (MkWriter (log_dir sw) (scalars sw ++ [MkScalar tg v st])))
            t)
  end.

(** *** File-system primitives *)

(** Modelled from the spec: createFileFolder (Method/path.py is not among the
    sources) makes the folder of the path; no file appears or changes. As
    for every primitive below, this is the call that returns: one that the
    file system refuses raises and ends the process. *)
Definition createFileFolder (p : string) (w : World) : Res World :=
  Ok (MkWorld (files w) (oplog w ++ [OpMkdir p])).

(** [torch.save(model_dict, p)], in two moments: the file is there and holds
    part of the bundle, then it holds all of it. *)
Definition torch_save_begin (c : Checkpoint) (p : string) (w : World)
  : Res World :=
  Ok (MkWorld (<[p := Truncated c]> (files w)) (oplog w)).

Definition torch_save_end (c : Checkpoint) (p : string) (w : World)
  : Res World :=
  Ok (MkWorld (<[p := Complete c]> (files w)) (oplog w ++ [OpWrite p])).

(** Modelled from the spec: removeFile (Method/path.py is not among the
    sources) deletes any file there is at the path. *)
Definition removeFile (p : string) (w : World) : Res World :=
  Ok (MkWorld (delete p (files w)) (oplog w ++ [OpRemove p])).

(** Modelled from the spec: renameFile (Method/path.py is not among the
    sources) renames the file at [src] into place at [dst]. *)
Definition renameFile (src dst : string) (w : World) : Res World :=
  match files w !! src with
  | None => Raise FileNotFoundError
  | Some f =>
      Ok (MkWorld (<[dst := f]> (delete src (files w)))
                  (oplog w ++ [OpRename src dst]))
  end.

(** [torch.load(p)] of a file that is there. *)
Definition torch_load (f : file) : Res Checkpoint :=
  match f with
  | Complete c => Ok c
  | Truncated _ => Raise RuntimeError
  end.

Fixpoint run_ops (ops : list (World -> Res World)) (w : World) : Res World :=
  match ops with
  | [] => Ok w
  | op :: rest => w' ← op w; run_ops rest w'
  end.

(** *** Checkpoint save (lines 99-117) *)

Definition model_dict_of (t : Trainer) : Checkpoint :=
  {| ck_model := model t;
     ck_optimizer := optimizer t;
     ck_step := step t;
     ck_loss_min := loss_min t;
     ck_log_folder_name := log_folder_name t |}.

(** The primitive operations of saveModel, in program order. *)
Definition saveModel_ops (t : Trainer) (save_model_file_path : string)
  : list (World -> Res World) :=
  let model_dict := model_dict_of t in
  let tmp_save_model_file_path := tmp_path save_model_file_path in
  [ createFileFolder save_model_file_path;
    torch_save_begin model_dict tmp_save_model_file_path;
    torch_save_end model_dict tmp_save_model_file_path;
    removeFile save_model_file_path;
    renameFile tmp_save_model_file_path save_model_file_path ].

Definition saveModel (t : Trainer) (save_model_file_path : string)
  (w : World) : Res World :=
  run_ops (saveModel_ops t save_model_file_path) w.

(** saveModel interrupted after its first [k] primitive operations. *)
Definition saveModel_interrupted (k : nat) (t : Trainer)
  (save_model_file_path : string) (w : World) : Res World :=
  run_ops (take k (saveModel_ops t save_model_file_path)) w.

(** *** Checkpoint load (lines 78-97); the boolean is the returned value. *)
Definition loadModel (t : Trainer) (model_file_path : string) (w : World)
  : Res (bool * Trainer) :=
  match files w !! model_file_path with
  | None => Ok (true, loadSummaryWriter t)
  | Some f =>
      model_dict ← torch_load f;
      let t := set_model (ck_model model_dict) t in
      let t := set_optimizer (ck_optimizer model_dict) t in
      let t := set_step (ck_step model_dict) t in
      let t := set_loss_min (ck_loss_min model_dict) t in
      let t := set_log_folder_name (ck_log_folder_name model_dict) t in
      Ok (true, loadSummaryWriter t)
  end.

(** *** One training step (lines 142-181) *)

(** lines 173-177 *)
Fixpoint log_losses (losses : LossMap) (t : Trainer) : Res Trainer :=
  match losses with
  | [] => Ok t
  | (key, loss) :: rest =>
      let loss_tensor := at_least_1d loss in
      let loss_mean := torch_mean torch loss_tensor in
      t' ← add_scalar ("Loss/" +:+ key) (LossVal loss_mean) (step t) t;
      log_losses rest t'
  end.

(** [toCuda], the draw of the query view and the clearing of the gradients
    (lines 143-152) act on the batch and on buffers that no checkpoint and
    no log holds; the forward pass is [forward], the backward pass and the
    update [optimizer_step]. *)
Definition trainStep (data : Batch) (t : Trainer) (w : World)
  : Res (Trainer * World) :=
  let '(weights1, losses) := forward (model t) (model_bn_momentum t) data in
  let t := set_model weights1 t in
  match loss_sum torch losses with
  | None => Raise RuntimeError
  | Some loss_sum_float =>
      t ← add_scalar "Loss/loss_sum" (LossVal loss_sum_float) (step t) t;
      '(t, w) ← (if flt loss_sum_float (loss_min t)
                 then
                   let t := set_loss_min loss_sum_float t in
                   w' ← saveModel t (best_path (log_folder_name t)) w;
                   Ok (t, w')
                 else Ok (t, w));
      t ← log_losses losses t;
      let '(weights2, opt2) :=
        optimizer_step (opt_lr (optimizer t)) (model t)
          (opt_state (optimizer t)) data in
      let o := MkOptimizer opt2 (opt_lr (optimizer t))
                 (opt_initial_lr (optimizer t)) in
      Ok (set_optimizer o (set_model weights2 t), w)
  end.

(** *** The epoch loop (lines 183-208) *)

(** [self.scheduler.step()]: LambdaLR, whose base rate is the one of
    construction. *)
Definition scheduler_step (t : Trainer) : Trainer :=
  let e := S (scheduler_last_epoch t) in
  let o := MkOptimizer (opt_state (optimizer t)) (lr * lr_lambda e)%R
             (opt_initial_lr (optimizer t)) in
  MkTrainer (model t) (model_bn_momentum t) o e (bn_scheduler_last_epoch t)
    (step t) (loss_min t) (log_folder_name t) (summary_writer t).

(** Modelled from the spec: [self.bn_scheduler.step()] advances the
    controller by one epoch and sets the momentum of the model to the value
    of [bnm_lambda] there. *)
Definition bn_scheduler_step (t : Trainer) : Trainer :=
  let e := S (bn_scheduler_last_epoch t) in
  MkTrainer (model t) (bnm_lambda e) (optimizer t) (scheduler_last_epoch t) e
    (step t) (loss_min t) (log_folder_name t) (summary_writer t).

(** lines 199-201 *)
Fixpoint run_batches (for_data : list Batch) (t : Trainer) (w : World)
  : Res (Trainer * World) :=
  match for_data with
  | [] => Ok (t, w)
  | data :: rest =>
      '(t, w) ← trainStep data t w;
      let t := set_step (step t + 1) t in
      run_batches rest t w
  end.

(** The body of the loop of line 186. *)
Definition train_epoch (for_data : list Batch) (t : Trainer) (w : World)
  : Res (Trainer * World) :=
  t ← add_scalar "Lr/lr" (RealVal (opt_lr (optimizer t))) (step t) t;
  '(t, w) ← run_batches for_data t w;
  let t := scheduler_step t in
  let t := bn_scheduler_step t in
  w ← saveModel t (last_path (log_folder_name t)) w;
  Ok (t, w).

(** [n] more epochs from epoch index [epoch]; [dataloader e] is what the
    data loader yields in epoch [e]. *)
Fixpoint train_epochs (n epoch : nat) (dataloader : nat -> list Batch)
  (t : Trainer) (w : World) : Res (Trainer * World) :=
  match n with
  | O => Ok (t, w)
  | S n' =>
      '(t, w) ← train_epoch (dataloader epoch) t w;
      train_epochs n' (S epoch) dataloader t w
  end.

Definition train (dataloader : nat -> list Batch) (t : Trainer) (w : World)
  : Res (Trainer * World) :=
  train_epochs total_epoch 0 dataloader t w.

(** The scalars one step logs: the aggregate, then the mean of every term. *)
Definition step_scalars (agg : pyfloat) (losses : LossMap) (st : nat)
  : list Scalar :=
  MkScalar "Loss/loss_sum" (LossVal agg) st
  :: map (fun kv => MkScalar ("Loss/" +:+ fst kv)
                      (LossVal (torch_mean torch (at_least_1d (snd kv)))) st)
         losses.

(** *** Observers of the two logs *)

(** How many times a file was renamed into place at [p]: the number of
    checkpoints written there. *)
Definition renames_into (p : string) (log : list FsOp) : nat :=
  length (List.filter (fun op => match op with
                                 | OpRename _ dst => String.eqb dst p
                                 | _ => false
                                 end) log).

(** The entries of a scalar log under one tag. *)
Definition entries_of (tg : string) (l : list Scalar) : list Scalar :=
  List.filter (fun s => String.eqb (tag s) tg) l.

End Trainer.

(** ** A stub network, for concrete runs

    The stub's loss map is the batch itself, its weights and optimiser state
    count the updates made. *)

Module Stub.

Definition forward (w : nat) (_ : R) (b : LossMap) : nat * LossMap := (w, b).

Definition optimizer_step (_ : R) (w o : nat) (_ : LossMap) : nat * nat :=
  (S w, S o).

(** A batch on which the network returns one scalar loss. *)
Definition batch_of_loss (z : Z) : LossMap :=
  [("loss"%string, Tensor [] [fin_of_Z z])].


Definition world0 : @World nat nat := MkWorld ∅ [].

(** A new trainer after [loadModel] of a path that is not there. *)
Definition trainer0 : @Trainer nat nat := loadSummaryWriter (init 0 0 "run0").

(** A checkpoint of an earlier save, and a world that holds it. *)
Definition old_checkpoint : @Checkpoint nat nat :=
  model_dict_of (set_step 7 (init 0 0 "run0")).

Definition world_old : @World nat nat :=
  MkWorld {[ "model.pth"%string := Complete old_checkpoint ]} [].

(** The four batches of aggregate losses 5.0, 3.0, 4.0, 1.0. *)
Definition batches_5341 : list LossMap := map batch_of_loss [5; 3; 4; 1]%Z.

(** The number of checkpoints written to the best destination, and the
    running minimum, once the first [k] of those batches are processed in
    binary32. *)
Definition best_after (k : nat) : option (nat * pyfloat) :=
  match run_batches Float32.kernel forward optimizer_step
          (take k batches_5341) trainer0 world0 with
  | Ok (t, w) =>
      Some (renames_into "./output/run0/model_best.pth" (oplog w), loss_min t)
  | Raise _ => None
  end.


End Stub.

(** ** Properties *)

(** *** Paths *)

Lemma prefix_head (c a : ascii) (s1 s2 : string) :
  String.prefix (String c s1) (String a s2) = true -> a = c.
Proof.
  simpl. destruct (ascii_dec c a) as [->|]; [done | discriminate].
Qed.

(** The temporary path is never the destination path. *)
Lemma tmp_path_ne (p : string) : tmp_path p ≠ p.
Proof.
  unfold tmp_path. induction p as [|a p IH].
  - discriminate.
  - cbn [split_head].
    destruct (String.prefix ".pth" (String a p)) eqn:Hpre.
    + apply prefix_head in Hpre. subst a. discriminate.
    + cbn [String.append]. intros [= H]. exact (IH H).
Qed.

Lemma append_slash_inj (a b : string) : a +:+ "/" = b +:+ "/" -> a = b.
Proof.
  revert b. induction a as [|c a IH]; intros [|d b]; cbn; intros H.
  - done.
  - injection H as _ H. destruct b; discriminate.
  - injection H as _ H. destruct a; discriminate.
  - injection H as -> H. f_equal. by apply IH.
Qed.

Lemma log_dir_of_inj (a b : string) : log_dir_of a = log_dir_of b -> a = b.
Proof.
  unfold log_dir_of. cbn. intros [= H]. by apply append_slash_inj.
Qed.

Section Properties.

Context {Weights OptState Batch : Type}.
Variable torch : Torch.
Variable forward : Weights -> R -> Batch -> Weights * LossMap.
Variable optimizer_step :
  R -> Weights -> OptState -> Batch -> Weights * OptState.

Local Abbreviation trainer := (@Trainer Weights OptState).
Local Abbreviation world := (@World Weights OptState).

(** *** Checkpoint save *)

(** The files after a save: the bundle at the destination, nothing at the
    temporary path, the rest as it was. *)
Lemma saveModel_eq (t : trainer) (p : string) (w : world) :
  saveModel t p w =
  Ok (MkWorld (<[p := Complete (model_dict_of t)]> (delete (tmp_path p) (files w)))
              (oplog w ++ [OpMkdir p; OpWrite (tmp_path p); OpRemove p;
                           OpRename (tmp_path p) p])).
Proof.
  unfold saveModel, saveModel_ops. cbn. unfold renameFile. cbn.
  rewrite lookup_delete_ne by (intros E; symmetry in E; by apply tmp_path_ne in E).
  rewrite lookup_insert_eq. cbn. f_equal. f_equal.
  - apply map_eq. intros k.
    destruct (decide (k = p)) as [->|Hp].
    { by rewrite !lookup_insert_eq. }
    rewrite !(lookup_insert_ne _ p) by done.
    destruct (decide (k = tmp_path p)) as [->|Ht].
    { by rewrite !lookup_delete_eq. }
    rewrite !(lookup_delete_ne _ (tmp_path p)) by done.
    rewrite lookup_delete_ne by done.
    by rewrite !lookup_insert_ne.
  - by rewrite <- !app_assoc.
Qed.

Lemma saveModel_ops_length (t : trainer) (p : string) :
  length (saveModel_ops t p) = 5.
Proof. reflexivity. Qed.

(** C1 (as amended). saveModel writes the whole bundle to a temporary path,
    which is never the destination path, then removes the destination file
    and renames the temporary file into place. At every interruption point
    the destination path holds what it held before the save (up to and
    including the complete write of the temporary file), then nothing (once
    the old file is removed and before the rename), then the complete new
    bundle; it never holds a part of the new bundle. Neither the interrupted
    run nor the whole one raises. *)
Theorem saveModel_interrupted_destination
  (k : nat) (t : trainer) (p : string) (w : world) :
  tmp_path p ≠ p /\
  (exists w_end,
     saveModel t p w = Ok w_end /\
     oplog w_end = oplog w ++ [OpMkdir p; OpWrite (tmp_path p); OpRemove p;
                               OpRename (tmp_path p) p] /\
     files w_end !! p = Some (Complete (model_dict_of t)) /\
     files w_end !! tmp_path p = None) /\
  (exists w',
     saveModel_interrupted k t p w = Ok w' /\
     files w' !! p =
       (if (k <=? 3)%nat then files w !! p
        else if (k =? 4)%nat then None
        else Some (Complete (model_dict_of t)))).
Proof.
  assert (Hne : tmp_path p ≠ p) by apply tmp_path_ne.
  split; [exact Hne |]. split.
  { rewrite saveModel_eq. eexists. split; [reflexivity |]. cbn [oplog files].
    split; [reflexivity |]. rewrite lookup_insert_eq.
    rewrite lookup_insert_ne by congruence. by rewrite lookup_delete_eq. }
  unfold saveModel_interrupted.
  destruct k as [|[|[|[|[|k]]]]].
  - exists w. done.
  - eexists. split; [reflexivity | done].
  - eexists. split; [reflexivity |]. cbn. by rewrite lookup_insert_ne.
  - eexists. split; [reflexivity |]. cbn. by rewrite !lookup_insert_ne.
  - eexists. split; [reflexivity |]. cbn. by rewrite lookup_delete_eq.
  - rewrite firstn_all2 by (rewrite saveModel_ops_length; lia).
    fold (saveModel t p w). rewrite saveModel_eq. eexists. split; [done |].
    cbn. by rewrite lookup_insert_eq.
Qed.

(** C2. Saving a trainer to a path and loading that path into any trainer
    succeeds and restores step, loss_min, log_folder_name, the model state
    and the optimiser state of the saved trainer. *)
Theorem checkpoint_round_trip (t t' : trainer) (p : string) (w : world) :
  exists w' t'',
    saveModel t p w = Ok w' /\
    loadModel t' p w' = Ok (true, t'') /\
    step t'' = step t /\
    loss_min t'' = loss_min t /\
    log_folder_name t'' = log_folder_name t /\
    model t'' = model t /\
    optimizer t'' = optimizer t.
Proof.
  rewrite saveModel_eq. eexists. eexists. split; [reflexivity |].
  unfold loadModel. cbn. rewrite lookup_insert_eq. cbn.
  split; [reflexivity |]. by repeat split.
Qed.

(** *** Checkpoint load *)

(** C4. Loading a path that is not there into a newly constructed trainer
    returns True without raising, leaves step 0 and loss_min +infinity, and
    opens a new logging stream, with nothing logged, in the folder
    "./logs/<namespace>/" of the namespace of construction; that folder is
    not the one of any run constructed at an earlier instant. On any trainer
    such a load only opens the stream of the trainer's namespace. *)
Theorem loadModel_cold_start
  (w0 : Weights) (o0 : OptState) (clock : N) (p : string) (w : world) :
  files w !! p = None ->
  exists t' : trainer,
    loadModel (init w0 o0 (getCurrentTime clock)) p w = Ok (true, t') /\
    step t' = 0%nat /\
    loss_min t' = inf /\
    log_folder_name t' = getCurrentTime clock /\
    summary_writer t' =
      Some (MkWriter ("./logs/" +:+ getCurrentTime clock +:+ "/") []) /\
    (forall prior : N, (prior < clock)%N ->
       "./logs/" +:+ getCurrentTime prior +:+ "/" ≠
       "./logs/" +:+ getCurrentTime clock +:+ "/") /\
    (forall t : trainer,
       loadModel t p w =
       Ok (true,
           set_summary_writer
             (Some (MkWriter ("./logs/" +:+ log_folder_name t +:+ "/") []))
             t)).
Proof.
  intros Hnone. unfold loadModel. rewrite Hnone. eexists.
  split; [reflexivity |]. repeat split.
  intros prior Hlt E. apply (log_dir_of_inj _ _) in E.
  unfold getCurrentTime in E. apply (inj pretty) in E. lia.
Qed.

End Properties.

(** *** The schedules *)

Lemma INR_21 : INR 21 = 21%R.
Proof. rewrite INR_IZR_INZ. reflexivity. Qed.

Lemma ln_lr_decay_neg : (ln lr_decay < 0)%R.
Proof.
  rewrite <- ln_1. apply ln_increasing; unfold lr_decay; lra.
Qed.

Lemma Rpower_lr_decay_antitone (x y : R) :
  (x <= y)%R -> (Rpower lr_decay y <= Rpower lr_decay x)%R.
Proof.
  intros Hxy. unfold Rpower.
  pose proof ln_lr_decay_neg as Hln.
  destruct (Rle_lt_or_eq_dec _ _ Hxy) as [Hlt | ->]; [| lra].
  left. apply exp_increasing. nra.
Qed.

(** C5. The two schedule functions of construction are the stated ones; the
    learning-rate multiplier does not increase with the epoch index, is at
    least 0.02 everywhere, and is 1 at epoch index 0. *)
Theorem schedule_functions :
  (forall e : nat,
     lr_lambda e = Rmax (Rpower (76 / 100) (INR e / 21)) (2 / 100)) /\
  (forall e : nat,
     bnm_lambda e =
     Rmax (9 / 10 * Rpower (5 / 10) (INR e / 21)) (1 / 100)) /\
  (forall e e' : nat, (e <= e')%nat -> (lr_lambda e' <= lr_lambda e)%R) /\
  (forall e : nat, (2 / 100 <= lr_lambda e)%R) /\
  lr_lambda 0 = 1%R.
Proof.
  repeat split.
  - intros e. unfold lr_lambda, decay_step, lr_decay, lowest_decay.
    by rewrite INR_21.
  - intros e. unfold bnm_lambda, bn_decay_step, bn_decay, bn_momentum,
      bn_lowest_decay. by rewrite INR_21.
  - intros e e' Hle. unfold lr_lambda.
    apply Rle_max_compat_r, Rpower_lr_decay_antitone.
    unfold decay_step. rewrite INR_21. apply le_INR in Hle. lra.
  - intros e. unfold lr_lambda. apply Rmax_r.
  - unfold lr_lambda. cbn [INR].
    replace (0 / INR decay_step)%R with 0%R by (unfold Rdiv; ring).
    rewrite Rpower_O by (unfold lr_decay; lra).
    apply Rmax_left. unfold lowest_decay. lra.
Qed.

(** *** Sums *)




(** *** One training step *)

Section StepProperties.

Context {Weights OptState Batch : Type}.
Variable torch : Torch.
Variable forward : Weights -> R -> Batch -> Weights * LossMap.
Variable optimizer_step :
  R -> Weights -> OptState -> Batch -> Weights * OptState.

Local Abbreviation trainer := (@Trainer Weights OptState).
Local Abbreviation world := (@World Weights OptState).
Local Abbreviation trainStep' := (trainStep torch forward optimizer_step).
Local Abbreviation run_batches' := (run_batches torch forward optimizer_step).
Local Abbreviation train_epoch' := (train_epoch torch forward optimizer_step).

Lemma log_losses_eq (losses : LossMap) (t : trainer) (sw : SummaryWriter) :
  summary_writer t = Some sw ->
  log_losses torch losses t =
  Ok (set_summary_writer
        (Some (MkWriter (log_dir sw)
                 (scalars sw ++
                  map (fun kv => MkScalar ("Loss/" +:+ fst kv)
                                   (LossVal (torch_mean torch (at_least_1d (snd kv))))
                                   (step t)) losses))) t).
Proof.
  revert t sw. induction losses as [|[k x] losses IH]; intros t sw Hsw.
  - cbn. rewrite app_nil_r. destruct t, sw. cbn in *. by subst.
  - cbn [log_losses]. unfold add_scalar. rewrite Hsw. cbn.
    erewrite IH by reflexivity. cbn. by rewrite <- app_assoc.
Qed.

(** What a step does when there is a writer and the terms concatenate. *)
Lemma trainStep_eq (d : Batch) (t : trainer) (w : world)
  (sw : SummaryWriter) (w1 : Weights) (losses : LossMap) (agg : pyfloat) :
  summary_writer t = Some sw ->
  forward (model t) (model_bn_momentum t) d = (w1, losses) ->
  loss_sum torch losses = Some agg ->
  let better := flt agg (loss_min t) in
  let sw1 := MkWriter (log_dir sw)
               (scalars sw ++ [MkScalar "Loss/loss_sum" (LossVal agg) (step t)]) in
  let t_saved := MkTrainer w1 (model_bn_momentum t) (optimizer t)
                   (scheduler_last_epoch t) (bn_scheduler_last_epoch t)
                   (step t) agg (log_folder_name t) (Some sw1) in
  let upd := optimizer_step (opt_lr (optimizer t)) w1
               (opt_state (optimizer t)) d in
  let best := best_path (log_folder_name t) in
  trainStep' d t w =
  Ok (MkTrainer (fst upd) (model_bn_momentum t)
        (MkOptimizer (snd upd) (opt_lr (optimizer t))
           (opt_initial_lr (optimizer t)))
        (scheduler_last_epoch t) (bn_scheduler_last_epoch t) (step t)
        (if better then agg else loss_min t) (log_folder_name t)
        (Some (MkWriter (log_dir sw)
                 (scalars sw ++ step_scalars torch agg losses (step t)))),
      if better
      then MkWorld (<[best := Complete (model_dict_of t_saved)]>
                      (delete (tmp_path best) (files w)))
                   (oplog w ++ [OpMkdir best; OpWrite (tmp_path best);
                                OpRemove best; OpRename (tmp_path best) best])
      else w).
Proof.
  intros Hsw Hfw Hlt. cbn zeta.
  destruct t as [m bn o se be st lm lfn swo]. cbn in Hsw, Hfw. subst swo.
  unfold trainStep. cbn [model model_bn_momentum]. rewrite Hfw, Hlt.
  unfold add_scalar at 1. cbn -[best_path tmp_path saveModel log_losses].
  destruct (flt agg lm) eqn:Hb.
  - rewrite saveModel_eq. cbn -[best_path tmp_path log_losses].
    erewrite log_losses_eq by reflexivity.
    cbn -[best_path tmp_path].
    destruct (optimizer_step _ _ _ _) as [w2 o2].
    cbn -[best_path tmp_path]. unfold step_scalars.
    by rewrite <- app_assoc.
  - cbn -[best_path tmp_path log_losses].
    erewrite log_losses_eq by reflexivity.
    cbn -[best_path tmp_path].
    destruct (optimizer_step _ _ _ _) as [w2 o2].
    cbn -[best_path tmp_path]. unfold step_scalars.
    by rewrite <- app_assoc.
Qed.

(** A step that returns had a writer and terms that concatenate. *)
Lemma trainStep_Ok_inv (d : Batch) (t : trainer) (w : world)
  (r : trainer * world) :
  trainStep' d t w = Ok r ->
  exists sw agg,
    summary_writer t = Some sw /\
    loss_sum torch (snd (forward (model t) (model_bn_momentum t) d)) = Some agg.
Proof.
  unfold trainStep.
  destruct (forward _ _ d) as [w1 losses]. cbn [snd].
  destruct (loss_sum torch losses) as [agg|]; [| done].
  unfold add_scalar at 1. cbn [summary_writer set_model].
  destruct (summary_writer t) as [sw|]; [| done]. eauto.
Qed.

(** Without a writer a step raises: AttributeError at the first add_scalar,
    unless torch.cat has raised before it. *)
Lemma trainStep_no_writer (d : Batch) (t : trainer) (w : world) :
  summary_writer t = None ->
  trainStep' d t w =
  Raise (match loss_sum torch
                 (snd (forward (model t) (model_bn_momentum t) d)) with
         | Some _ => AttributeError
         | None => RuntimeError
         end).
Proof.
  intros Hsw. unfold trainStep.
  destruct (forward _ _ d) as [w1 losses]. cbn [snd].
  destruct (loss_sum torch losses) as [agg|]; [| done].
  unfold add_scalar at 1. cbn [summary_writer set_model]. by rewrite Hsw.
Qed.

Lemma entries_of_app (tg : string) (l1 l2 : list Scalar) :
  entries_of tg (l1 ++ l2) = entries_of tg l1 ++ entries_of tg l2.
Proof. apply List.filter_app. Qed.

(** A step logs nothing under "Lr/lr". *)
Lemma entries_of_step_scalars (agg : pyfloat) (losses : LossMap) (st : nat) :
  entries_of "Lr/lr" (step_scalars torch agg losses st) = [].
Proof.
  unfold step_scalars, entries_of. cbn.
  induction losses as [|[k x] losses IH]; [done |]. cbn. exact IH.
Qed.

Lemma renames_into_app (p : string) (l1 l2 : list FsOp) :
  renames_into p (l1 ++ l2) = (renames_into p l1 + renames_into p l2)%nat.
Proof. unfold renames_into. by rewrite List.filter_app, length_app. Qed.

(** One save renames one file into place at its destination. *)
Lemma renames_into_save (p : string) :
  renames_into p [OpMkdir p; OpWrite (tmp_path p); OpRemove p;
                  OpRename (tmp_path p) p] = 1%nat.
Proof. unfold renames_into. cbn [List.filter]. by rewrite String.eqb_refl. Qed.

(** What a step leaves alone: the counter, the optimiser's rates, the
    momentum, the two controllers and the namespace; and the writer only
    grows, by entries other than "Lr/lr". *)
Lemma trainStep_frame (d : Batch) (t t' : trainer) (w w' : world) :
  trainStep' d t w = Ok (t', w') ->
  step t' = step t /\
  opt_lr (optimizer t') = opt_lr (optimizer t) /\
  model_bn_momentum t' = model_bn_momentum t /\
  scheduler_last_epoch t' = scheduler_last_epoch t /\
  bn_scheduler_last_epoch t' = bn_scheduler_last_epoch t /\
  log_folder_name t' = log_folder_name t /\
  exists sw new,
    summary_writer t = Some sw /\
    summary_writer t' = Some (MkWriter (log_dir sw) (scalars sw ++ new)) /\
    entries_of "Lr/lr" new = [].
Proof.
  intros H. destruct (trainStep_Ok_inv _ _ _ _ H) as (sw & agg & Hsw & Hlt).
  destruct (forward (model t) (model_bn_momentum t) d) as [w1 losses] eqn:Hfw.
  cbn [snd] in Hlt.
  rewrite (trainStep_eq d t w sw w1 losses agg Hsw Hfw Hlt) in H.
  injection H as <- _. cbn. repeat (split; [reflexivity |]).
  exists sw. eexists. split; [exact Hsw |]. split; [reflexivity |].
  apply entries_of_step_scalars.
Qed.

Lemma run_batches_app (pre post : list Batch) (t : trainer) (w : world) :
  run_batches' (pre ++ post) t w =
  '(t1, w1) ← run_batches' pre t w; run_batches' post t1 w1.
Proof.
  revert t w. induction pre as [|d pre IH]; intros t w; [done |].
  cbn [app run_batches].
  destruct (trainStep' d t w) as [[t1 w1]|e]; [| done].
  cbn [mbind Res_bind]. apply IH.
Qed.

Lemma run_batches_frame (ds : list Batch) (t t' : trainer) (w w' : world) :
  run_batches' ds t w = Ok (t', w') ->
  step t' = (step t + length ds)%nat /\
  opt_lr (optimizer t') = opt_lr (optimizer t) /\
  model_bn_momentum t' = model_bn_momentum t /\
  scheduler_last_epoch t' = scheduler_last_epoch t /\
  bn_scheduler_last_epoch t' = bn_scheduler_last_epoch t /\
  log_folder_name t' = log_folder_name t /\
  forall sw, summary_writer t = Some sw ->
    exists new,
      summary_writer t' = Some (MkWriter (log_dir sw) (scalars sw ++ new)) /\
      entries_of "Lr/lr" new = [].
Proof.
  revert t w. induction ds as [|d ds IH]; intros t w H.
  - injection H as <- <-. rewrite Nat.add_0_r. repeat (split; [reflexivity |]).
    intros sw Hsw. exists []. rewrite app_nil_r. by destruct sw.
  - cbn [run_batches] in H.
    destruct (trainStep' d t w) as [[t1 w1]|e] eqn:Hd; [| done].
    cbn [mbind Res_bind] in H.
    apply trainStep_frame in Hd
      as (Hst & Hlr & Hbn & Hse & Hbe & Hlf & sw & new & Hsw & Hsw1 & Hnew).
    apply IH in H as (Hst' & Hlr' & Hbn' & Hse' & Hbe' & Hlf' & Hw').
    cbn in Hst', Hlr', Hbn', Hse', Hbe', Hlf', Hw'.
    repeat split; try congruence.
    + cbn [length]. lia.
    + intros sw0 Hsw0. assert (sw0 = sw) as -> by congruence.
      destruct (Hw' _ Hsw1) as (new' & -> & Hnew'). cbn.
      exists (new ++ new'). rewrite app_assoc. split; [done |].
      by rewrite entries_of_app, Hnew, Hnew'.
Qed.


(** C8. trainStep leaves the step counter as it found it, the checkpoint it
    may write included; the counter advances in train, by one after each
    trainStep that returns. *)
Theorem step_counter_frame :
  (forall (d : Batch) (t t' : trainer) (w w' : world),
     trainStep torch forward optimizer_step d t w = Ok (t', w') -> step t' = step t) /\
  (forall (ds : list Batch) (t t' : trainer) (w w' : world),
     run_batches torch forward optimizer_step ds t w = Ok (t', w') ->
     step t' = (step t + length ds)%nat).
Proof.
  split.
  - intros d t t' w w' H. by apply trainStep_frame in H as [? _].
  - intros ds t t' w w' H. by apply run_batches_frame in H as [? _].
Qed.

(** C9. When the aggregate of a batch is a new minimum, the step assigns it
    to loss_min before it saves: the bundle at the best destination carries
    the new loss_min (the aggregate of that batch), the model state of after
    the forward pass and the optimiser state as they are before the update of
    this batch, which the trainer then makes. *)
Theorem best_checkpoint_holds_new_minimum
  (d : Batch) (t : trainer) (w : world) (sw : SummaryWriter)
  (w1 : Weights) (losses : LossMap) (agg : pyfloat) :
  summary_writer t = Some sw ->
  forward (model t) (model_bn_momentum t) d = (w1, losses) ->
  loss_sum torch losses = Some agg ->
  flt agg (loss_min t) = true ->
  exists (t' : trainer) (w' : world) (c : Checkpoint),
    trainStep' d t w = Ok (t', w') /\
    files w' !! best_path (log_folder_name t) = Some (Complete c) /\
    ck_loss_min c = agg /\
    loss_min t' = agg /\
    ck_model c = w1 /\
    ck_optimizer c = optimizer t /\
    ck_step c = step t /\
    (model t', opt_state (optimizer t')) =
      optimizer_step (opt_lr (optimizer t)) w1 (opt_state (optimizer t)) d.
Proof.
  intros Hsw Hfw Hagg Hlt.
  rewrite (trainStep_eq d t w sw w1 losses agg Hsw Hfw Hagg). cbn zeta.
  rewrite Hlt. eexists. eexists. eexists. split; [reflexivity |].
  cbn -[best_path tmp_path]. rewrite lookup_insert_eq.
  split; [reflexivity |]. cbn. repeat (split; [reflexivity |]).
  by destruct (optimizer_step _ _ _ _).
Qed.

Lemma total_epoch_pos : exists n, total_epoch = S n.
Proof.
  exists (Z.to_nat 9999999). unfold total_epoch.
  rewrite <- Z2Nat.inj_succ by lia. reflexivity.
Qed.

(** Without a writer the first add_scalar of train raises. *)
Lemma train_no_writer (dataloader : nat -> list Batch) (t : trainer)
  (w : world) :
  summary_writer t = None ->
  train torch forward optimizer_step dataloader t w = Raise AttributeError.
Proof.
  intros Hsw. unfold train. destruct total_epoch_pos as [n ->].
  cbn [train_epochs]. unfold train_epoch, add_scalar. by rewrite Hsw.
Qed.

(** C10. A newly constructed trainer has no summary writer, saving a
    checkpoint or advancing the controllers gives it none, and loadModel and
    loadSummaryWriter give it one; without one, trainStep and train raise
    instead of logging: AttributeError at their first add_scalar (trainStep
    only if torch.cat has not raised before). *)
Theorem no_summary_writer_no_training
  (w0 : Weights) (o0 : OptState) (now : string) (t : trainer) (d : Batch)
  (dataloader : nat -> list Batch) (w : world) :
  summary_writer t = None ->
  summary_writer (init w0 o0 now) = None /\
  summary_writer (scheduler_step t) = None /\
  summary_writer (bn_scheduler_step t) = None /\
  is_Some (summary_writer (loadSummaryWriter t)) /\
  (forall p r, loadModel t p w = Ok r -> is_Some (summary_writer (snd r))) /\
  (exists e, trainStep' d t w = Raise e) /\
  (forall agg,
     loss_sum torch (snd (forward (model t) (model_bn_momentum t) d)) = Some agg ->
     trainStep' d t w = Raise AttributeError) /\
  train torch forward optimizer_step dataloader t w = Raise AttributeError.
Proof.
  intros Hsw. split; [reflexivity |]. split; [exact Hsw |].
  split; [exact Hsw |]. split; [by eexists |]. split; [| split; [| split]].
  - intros p r. unfold loadModel.
    destruct (files w !! p) as [[c|c]|]; cbn; [| done |];
      intros [= <-]; by eexists.
  - eexists. by apply trainStep_no_writer.
  - intros agg Hagg. rewrite trainStep_no_writer by done. by rewrite Hagg.
  - by apply train_no_writer.
Qed.

(** C6. In an epoch of train that returns, every batch is handed to trainStep
    under the learning rate and the batch-norm momentum the epoch started
    with; the only "Lr/lr" entry logged in the epoch is that learning rate,
    at the step the epoch started at; the two controllers advance after the
    last batch; and the bundle at the last destination is the trainer of
    after the advance. *)
Theorem epoch_ordering
  (for_data : list Batch) (t t_end : trainer) (w w_end : world) :
  train_epoch' for_data t w = Ok (t_end, w_end) ->
  (forall pre d post, for_data = pre ++ d :: post ->
     exists t0 t_d w_d r,
       add_scalar "Lr/lr" (RealVal (opt_lr (optimizer t))) (step t) t = Ok t0 /\
       run_batches' pre t0 w = Ok (t_d, w_d) /\
       trainStep' d t_d w_d = Ok r /\
       opt_lr (optimizer t_d) = opt_lr (optimizer t) /\
       model_bn_momentum t_d = model_bn_momentum t /\
       scheduler_last_epoch t_d = scheduler_last_epoch t /\
       bn_scheduler_last_epoch t_d = bn_scheduler_last_epoch t) /\
  (exists sw new,
     summary_writer t = Some sw /\
     summary_writer t_end = Some (MkWriter (log_dir sw) (scalars sw ++ new)) /\
     entries_of "Lr/lr" new =
       [MkScalar "Lr/lr" (RealVal (opt_lr (optimizer t))) (step t)]) /\
  scheduler_last_epoch t_end = S (scheduler_last_epoch t) /\
  bn_scheduler_last_epoch t_end = S (bn_scheduler_last_epoch t) /\
  opt_lr (optimizer t_end) = (lr * lr_lambda (S (scheduler_last_epoch t)))%R /\
  model_bn_momentum t_end = bnm_lambda (S (bn_scheduler_last_epoch t)) /\
  step t_end = (step t + length for_data)%nat /\
  files w_end !! last_path (log_folder_name t) =
    Some (Complete (model_dict_of t_end)).
Proof.
  intros H. unfold train_epoch in H. unfold add_scalar in H |- *.
  destruct (summary_writer t) as [sw|] eqn:Hsw; [| done].
  cbn [mbind Res_bind] in H.
  match type of H with
  | context [run_batches' for_data ?t0 w] => set (t0' := t0) in *
  end.
  destruct (run_batches' for_data t0' w) as [[t1 w1]|e] eqn:Hrun; [| done].
  cbn [mbind Res_bind] in H. rewrite saveModel_eq in H.
  cbn [mbind Res_bind] in H. injection H as <- <-.
  pose proof (run_batches_frame _ _ _ _ _ Hrun)
    as (Hst & Hlr & Hbn & Hse & Hbe & Hlf & Hw).
  cbn in Hst, Hlr, Hbn, Hse, Hbe, Hlf.
  split; [| split].
  - intros pre d post ->. rewrite run_batches_app in Hrun.
    destruct (run_batches' pre t0' w) as [[t_d w_d]|e] eqn:Hpre; [| done].
    cbn [mbind Res_bind run_batches] in Hrun.
    destruct (trainStep' d t_d w_d) as [r|e] eqn:Hd; [| done].
    exists t0', t_d, w_d, r. split; [reflexivity |].
    split; [exact Hpre |]. split; [exact Hd |].
    apply run_batches_frame in Hpre as (_ & ? & ? & ? & ? & _).
    by repeat split.
  - destruct (Hw _ eq_refl) as (new & Hsw1 & Hnew). cbn in Hsw1.
    exists sw. eexists. split; [reflexivity |]. cbn. rewrite Hsw1.
    rewrite <- app_assoc. split; [reflexivity |].
    rewrite entries_of_app, Hnew. reflexivity.
  - cbn -[last_path tmp_path]. rewrite Hse, Hbe, Hst.
    repeat (split; [reflexivity |]).
    rewrite Hlf. by rewrite lookup_insert_eq.
Qed.

End StepProperties.

(** *** Best-model tracking *)

(** No float is strictly below itself. *)
Lemma flt_irrefl (a : pyfloat) : flt a a = false.
Proof.
  unfold flt, SFltb, SFcompare.
  destruct a as [[]|[]| |[] m e]; try done;
    by rewrite Z.compare_refl, Pos.compare_cont_refl.
Qed.

(** C3. A step that returns writes a checkpoint to the best destination,
    "./output/<log_folder_name>/model_best.pth", exactly when the aggregate
    of its batch is strictly below loss_min (never when it is NaN or equal
    to loss_min), and then
    loss_min becomes that aggregate and the bundle written carries it;
    otherwise the world and loss_min stay as they were. On the aggregates
    5.0, 3.0, 4.0, 1.0 from loss_min = +infinity, the number of checkpoints
    written to "./output/run0/model_best.pth" is 1, 2, 2, 3 after the four
    steps. *)
Theorem best_model_tracking :
  (forall (Weights OptState Batch : Type) (torch : Torch)
          (forward : Weights -> R -> Batch -> Weights * LossMap)
          (optimizer_step :
             R -> Weights -> OptState -> Batch -> Weights * OptState)
          (d : Batch) (t t' : @Trainer Weights OptState)
          (w w' : @World Weights OptState) (agg : pyfloat),
     loss_sum torch (snd (forward (model t) (model_bn_momentum t) d))
       = Some agg ->
     trainStep torch forward optimizer_step d t w = Ok (t', w') ->
     let best := "./output/" +:+ log_folder_name t +:+ "/model_best.pth" in
     renames_into best (oplog w') =
       (renames_into best (oplog w) +
        (if flt agg (loss_min t) then 1 else 0))%nat /\
     loss_min t' = (if flt agg (loss_min t) then agg else loss_min t) /\
     (if flt agg (loss_min t)
      then exists c, files w' !! best = Some (Complete c) /\ ck_loss_min c = agg
      else w' = w) /\
     (agg = S754_nan \/ agg = loss_min t ->
      w' = w /\ loss_min t' = loss_min t)) /\
  map Stub.best_after [0; 1; 2; 3; 4]%nat =
    [Some (0%nat, inf); Some (1%nat, fin_of_Z 5); Some (2%nat, fin_of_Z 3);
     Some (2%nat, fin_of_Z 3); Some (3%nat, fin_of_Z 1)].
Proof.
  split; [| vm_compute; reflexivity].
  intros Weights OptState Batch torch forward optimizer_step d t t' w w' agg
    Hlt H.
  destruct (trainStep_Ok_inv _ _ _ _ _ _ _ H) as (sw & agg' & Hsw & Hlt').
  assert (agg' = agg) as -> by congruence.
  destruct (forward (model t) (model_bn_momentum t) d) as [w1 losses] eqn:Hfw.
  cbn [snd] in Hlt.
  rewrite (trainStep_eq _ _ _ d t w sw w1 losses agg Hsw Hfw Hlt) in H.
  cbn zeta in H. injection H as <- <-. cbn zeta.
  fold (best_path (log_folder_name t)).
  destruct (flt agg (loss_min t)) eqn:Hflt.
  - cbn [oplog files loss_min].
    rewrite renames_into_app, renames_into_save. split; [done |].
    split; [done |]. split; [eexists; by rewrite lookup_insert_eq |].
    intros [-> | ->]; [discriminate Hflt |]. by rewrite flt_irrefl in Hflt.
  - cbn [loss_min]. split; [lia |]. by repeat split.
Qed.

(** ** Concrete runs on the stub network *)

(** An old checkpoint is at "model.pth"; a save of a newer trainer is
    interrupted after the old file is removed and before the rename: the
    destination holds neither the old bundle nor the new one. *)
Lemma saveModel_interrupted_destination_absent :
  files Stub.world_old !! "model.pth" = Some (Complete Stub.old_checkpoint) /\
  exists w',
    saveModel_interrupted 4 Stub.trainer0 "model.pth" Stub.world_old = Ok w' /\
    files w' !! "model.pth" = None /\
    files w' !! "model.pth" ≠ Some (Complete Stub.old_checkpoint) /\
    files w' !! "model.pth" ≠
      Some (Complete (model_dict_of Stub.trainer0)).
Proof.
  split; [apply lookup_singleton_eq |].
  eexists. split; [reflexivity |]. cbn [files].
  rewrite lookup_delete_eq. repeat split; discriminate.
Qed.

Lemma loadModel_cold_start_witness :
  files Stub.world0 !! "./output/run0/model_last.pth" = None /\
  exists t',
    loadModel (init 0%nat 0%nat (getCurrentTime 1667520000))
      "./output/run0/model_last.pth" Stub.world0 = Ok (true, t') /\
    step t' = 0%nat /\ loss_min t' = inf /\
    summary_writer t' = Some (MkWriter "./logs/1667520000/" []).
Proof.
  assert (H : files Stub.world0 !! "./output/run0/model_last.pth" = None)
    by reflexivity.
  split; [exact H |].
  destruct (loadModel_cold_start 0%nat 0%nat 1667520000%N _ Stub.world0 H)
    as (t' & Hl & Hs & Hm & _ & Hw & _).
  exists t'. repeat split; assumption.
Defined.

Lemma schedule_functions_witness : (lr_lambda 21 <= lr_lambda 0)%R.
Proof.
  apply (proj1 (proj2 (proj2 schedule_functions)) 0%nat 21%nat). lia.
Defined.



Lemma step_counter_frame_witness :
  exists t' w',
    trainStep Float32.kernel Stub.forward Stub.optimizer_step (Stub.batch_of_loss 5)
      Stub.trainer0 Stub.world0 = Ok (t', w') /\
    step t' = step Stub.trainer0.
Proof.
  destruct (trainStep Float32.kernel Stub.forward Stub.optimizer_step (Stub.batch_of_loss 5)
              Stub.trainer0 Stub.world0) as [[t' w']|e] eqn:H.
  - exists t', w'. split; [reflexivity |].
    exact (proj1 (step_counter_frame Float32.kernel Stub.forward Stub.optimizer_step)
             _ _ _ _ _ H).
  - vm_compute in H. discriminate H.
Defined.

Lemma best_checkpoint_holds_new_minimum_witness :
  exists t' w' c,
    trainStep Float32.kernel Stub.forward Stub.optimizer_step (Stub.batch_of_loss 5)
      Stub.trainer0 Stub.world0 = Ok (t', w') /\
    files w' !! best_path "run0" = Some (Complete c) /\
    ck_loss_min c = fin_of_Z 5 /\
    ck_model c = 0%nat /\
    model t' = 1%nat.
Proof.
  destruct (best_checkpoint_holds_new_minimum
              Float32.kernel Stub.forward Stub.optimizer_step (Stub.batch_of_loss 5)
              Stub.trainer0 Stub.world0
              (new_writer (log_dir_of "run0")) 0%nat (Stub.batch_of_loss 5)
              (fin_of_Z 5) eq_refl eq_refl)
    as (t' & w' & c & Hs & Hf & Hl & _ & Hm & _ & _ & Hu).
  - vm_compute. reflexivity.
  - reflexivity.
  - exists t', w', c. repeat split; try assumption.
    injection Hu as Hu _. exact Hu.
Defined.

Lemma no_summary_writer_no_training_witness :
  summary_writer (init 0%nat 0%nat "run0") = None /\
  train Float32.kernel Stub.forward Stub.optimizer_step (fun _ => Stub.batches_5341)
    (init 0%nat 0%nat "run0") Stub.world0 = Raise AttributeError.
Proof.
  split; [reflexivity |].
  apply (no_summary_writer_no_training Float32.kernel Stub.forward Stub.optimizer_step
           0%nat 0%nat "run0" (init 0%nat 0%nat "run0")
           (Stub.batch_of_loss 5) (fun _ => Stub.batches_5341) Stub.world0
           eq_refl).
Defined.

Lemma epoch_ordering_witness :
  exists t_end w_end,
    train_epoch Float32.kernel Stub.forward Stub.optimizer_step Stub.batches_5341
      Stub.trainer0 Stub.world0 = Ok (t_end, w_end) /\
    step t_end = 4%nat /\
    scheduler_last_epoch t_end = 1%nat /\
    files w_end !! last_path "run0" = Some (Complete (model_dict_of t_end)).
Proof.
  destruct (train_epoch Float32.kernel Stub.forward Stub.optimizer_step Stub.batches_5341
              Stub.trainer0 Stub.world0) as [[t_end w_end]|e] eqn:H.
  - exists t_end, w_end. split; [reflexivity |].
    destruct (epoch_ordering Float32.kernel Stub.forward Stub.optimizer_step _ _ _ _ _ H)
      as (_ & _ & Hse & _ & _ & _ & Hst & Hf).
    repeat split; assumption.
  - vm_compute in H. discriminate H.
Defined.

Lemma best_model_tracking_witness :
  exists t' w',
    trainStep Float32.kernel Stub.forward Stub.optimizer_step (Stub.batch_of_loss 5)
      Stub.trainer0 Stub.world0 = Ok (t', w') /\
    renames_into "./output/run0/model_best.pth" (oplog w') = 1%nat /\
    loss_min t' = fin_of_Z 5.
Proof.
  destruct (trainStep Float32.kernel Stub.forward Stub.optimizer_step (Stub.batch_of_loss 5)
              Stub.trainer0 Stub.world0) as [[t' w']|e] eqn:H.
  - exists t', w'. split; [reflexivity |].
    destruct (proj1 best_model_tracking _ _ _ Float32.kernel Stub.forward
                Stub.optimizer_step (Stub.batch_of_loss 5) Stub.trainer0 t'
                Stub.world0 w' (fin_of_Z 5) eq_refl H)
      as (Hn & Hl & _).
    split; [exact Hn | exact Hl].
  - vm_compute in H. discriminate H.
Defined.

(** ** Further properties of the checkpoint files *)

Lemma list_ascii_of_string_app (a b : string) :
  list_ascii_of_string (a +:+ b) =
  list_ascii_of_string a ++ list_ascii_of_string b.
Proof. induction a as [|c a IH]; simpl; [done | by f_equal]. Qed.

(** Two strings that end in different suffixes of one length differ. *)
Lemma append_suffix_ne (a b x y : string) :
  String.length x = String.length y -> x ≠ y -> a +:+ x ≠ b +:+ y.
Proof.
  intros Hlen Hne E. apply Hne.
  apply (f_equal list_ascii_of_string) in E.
  rewrite !list_ascii_of_string_app in E.
  apply app_inj_2 in E as [_ E].
  - rewrite <- (string_of_list_ascii_of_string x),
      <- (string_of_list_ascii_of_string y). by rewrite E.
  - clear E Hne. revert y Hlen.
    induction x as [|c x IH]; intros [|d y]; cbn; try done.
    intros [= H]. f_equal. by apply IH.
Qed.

Lemma best_path_ne_last_path (n : string) : best_path n ≠ last_path n.
Proof.
  unfold best_path, last_path. intros E.
  apply (String.app_inj "./output/") in E. revert E.
  apply (append_suffix_ne n n); [reflexivity | discriminate].
Qed.

Lemma string_app_assoc (a b c : string) : (a +:+ b) +:+ c = a +:+ b +:+ c.
Proof.
  induction a as [|x a IH]; [done |].
  change (String x ((a +:+ b) +:+ c) = String x (a +:+ b +:+ c)).
  by rewrite IH.
Qed.

(** No temporary path is the last destination of a namespace. *)
Lemma tmp_path_ne_last_path (q n : string) : tmp_path q ≠ last_path n.
Proof.
  unfold tmp_path, last_path.
  change "/model_last.pth"%string with ("/model_" +:+ "last.pth").
  rewrite <- !string_app_assoc.
  apply append_suffix_ne; [reflexivity | discriminate].
Qed.

(** No temporary path is the best destination of a namespace. *)
Lemma tmp_path_ne_best_path (q n : string) : tmp_path q ≠ best_path n.
Proof.
  unfold tmp_path, best_path.
  change "/model_best.pth"%string with ("/model_" +:+ "best.pth").
  rewrite <- !string_app_assoc.
  apply append_suffix_ne; [reflexivity | discriminate].
Qed.

Lemma prefix_cons (c a : ascii) (s1 s2 : string) :
  String.prefix (String c s1) (String a s2) =
  if ascii_dec c a then String.prefix s1 s2 else false.
Proof. reflexivity. Qed.

Lemma append_cons (c : ascii) (a b : string) :
  String c a +:+ b = String c (a +:+ b).
Proof. reflexivity. Qed.

(** The first four characters decide [String.prefix ".pth"]: appending a
    tail that does not start with p, t or h to a string with at least one
    character cannot create the prefix. *)
Lemma prefix_pth_app (c : ascii) (a tail : string) :
  String.prefix ".pth" (String c a) = false ->
  (forall x r, tail = String x r -> x ≠ "p"%char /\ x ≠ "t"%char /\ x ≠ "h"%char) ->
  String.prefix ".pth" (String c a +:+ tail) = false.
Proof.
  intros Hpre Htail.
  assert (Hcase : tail = EmptyString \/
            exists x r, tail = String x r /\
                        x ≠ "p"%char /\ x ≠ "t"%char /\ x ≠ "h"%char).
  { destruct tail as [|x r]; [by left | right]. exists x, r.
    split; [done |]. by apply (Htail x r). }
  clear Htail. rewrite append_cons. rewrite prefix_cons in Hpre |- *.
  destruct (ascii_dec "." c) as [_|]; [| done].
  destruct a as [|c2 a].
  { destruct Hcase as [-> | (x & r & -> & Hp & _ & _)]; [done |].
    change (EmptyString +:+ String x r) with (String x r).
    rewrite prefix_cons. by destruct (ascii_dec "p" x) as [<-|]. }
  rewrite append_cons. rewrite prefix_cons in Hpre |- *.
  destruct (ascii_dec "p" c2) as [_|]; [| done].
  destruct a as [|c3 a].
  { destruct Hcase as [-> | (x & r & -> & _ & Ht & _)]; [done |].
    change (EmptyString +:+ String x r) with (String x r).
    rewrite prefix_cons. by destruct (ascii_dec "t" x) as [<-|]. }
  rewrite append_cons. rewrite prefix_cons in Hpre |- *.
  destruct (ascii_dec "t" c3) as [_|]; [| done].
  destruct a as [|c4 a].
  { destruct Hcase as [-> | (x & r & -> & _ & _ & Hh)]; [done |].
    change (EmptyString +:+ String x r) with (String x r).
    rewrite prefix_cons. by destruct (ascii_dec "h" x) as [<-|]. }
  rewrite append_cons. rewrite prefix_cons in Hpre |- *.
  destruct (ascii_dec "h" c4); [by destruct a | done].
Qed.

(** A string in which ".pth" does not occur is split off whole. *)
Lemma split_head_pth_app (a tail : string) :
  split_head ".pth" a = a ->
  (forall x r, tail = String x r -> x ≠ "p"%char /\ x ≠ "t"%char /\ x ≠ "h"%char) ->
  split_head ".pth" (a +:+ tail) = a +:+ split_head ".pth" tail.
Proof.
  intros Ha Htail. induction a as [|c a IH]; [done |].
  cbn [split_head] in Ha.
  destruct (String.prefix ".pth" (String c a)) eqn:Hpre; [done |].
  injection Ha as Ha.
  pose proof (prefix_pth_app c a tail Hpre Htail) as Hpre'.
  rewrite append_cons in Hpre' |- *. cbn [split_head]. rewrite Hpre'.
  rewrite append_cons. f_equal. by apply IH.
Qed.

Section CheckpointFiles.

Context {Weights OptState : Type}.

Local Abbreviation trainer := (@Trainer Weights OptState).
Local Abbreviation world := (@World Weights OptState).

(** X1. A save touches two paths only: every path other than the destination
    and the temporary path holds after the save what it held before. *)
Theorem saveModel_frame (t : trainer) (p q : string) (w : world) :
  q ≠ p -> q ≠ tmp_path p ->
  exists w', saveModel t p w = Ok w' /\ files w' !! q = files w !! q.
Proof.
  intros Hp Ht. rewrite saveModel_eq. eexists. split; [reflexivity |].
  cbn [files]. rewrite lookup_insert_ne by done. by rewrite lookup_delete_ne.
Qed.

(** X2. Of two saves to one path the second wins: the files are those of the
    second save alone, and loading the path gives the second trainer's
    step, loss_min, namespace, model and optimiser state. *)
Theorem saveModel_twice (t1 t2 t' : trainer) (p : string) (w : world) :
  exists w1 w2 w2' t'',
    saveModel t1 p w = Ok w1 /\
    saveModel t2 p w1 = Ok w2 /\
    saveModel t2 p w = Ok w2' /\
    files w2 = files w2' /\
    loadModel t' p w2 = Ok (true, t'') /\
    model_dict_of t'' = model_dict_of t2.
Proof.
  rewrite !saveModel_eq. eexists. eexists. eexists. eexists.
  split; [reflexivity |]. rewrite saveModel_eq.
  split; [reflexivity |]. split; [reflexivity |]. cbn [files]. split.
  - apply map_eq. intros k.
    destruct (decide (k = p)) as [->|Hp]; [by rewrite !lookup_insert_eq |].
    rewrite !(lookup_insert_ne _ p) by done.
    destruct (decide (k = tmp_path p)) as [->|Ht];
      [by rewrite !lookup_delete_eq |].
    rewrite !(lookup_delete_ne _ (tmp_path p)) by done.
    rewrite lookup_insert_ne by done. by rewrite lookup_delete_ne.
  - unfold loadModel. cbn [files]. rewrite lookup_insert_eq. cbn.
    split; reflexivity.
Qed.

(** X3. The best and the last checkpoint of a namespace do not disturb each
    other: a save to either destination, its temporary file included, leaves
    the file at the other destination as it was, whatever the namespace. *)
Theorem best_and_last_independent (t : trainer) (n : string) (w : world) :
  exists w1 w2,
    saveModel t (best_path n) w = Ok w1 /\
    files w1 !! last_path n = files w !! last_path n /\
    saveModel t (last_path n) w = Ok w2 /\
    files w2 !! best_path n = files w !! best_path n.
Proof.
  rewrite !saveModel_eq. eexists. eexists.
  split; [reflexivity |]. cbn [files]. split; [| split; [reflexivity |]].
  - rewrite lookup_insert_ne by apply best_path_ne_last_path.
    rewrite lookup_delete_ne; [done |]. apply tmp_path_ne_last_path.
  - cbn [files]. rewrite lookup_insert_ne
      by (intros E; symmetry in E; by apply best_path_ne_last_path in E).
    rewrite lookup_delete_ne; [done |]. apply tmp_path_ne_best_path.
Qed.

End CheckpointFiles.

Lemma split_head_output (x : string) :
  split_head ".pth" ("./output/" +:+ x) = "./output/" +:+ split_head ".pth" x.
Proof. reflexivity. Qed.

(** X4. For a namespace in which ".pth" does not occur, the temporary files
    of the best and the last checkpoint lie beside their destinations, in
    the folder of the namespace. *)
Theorem tmp_path_of_namespace (n : string) :
  split_head ".pth" n = n ->
  tmp_path (best_path n) = "./output/" +:+ n +:+ "/model_best_tmp.pth" /\
  tmp_path (last_path n) = "./output/" +:+ n +:+ "/model_last_tmp.pth".
Proof.
  intros Hn.
  assert (Hslash : forall tl x r, String "/" tl = String x r ->
            x ≠ "p"%char /\ x ≠ "t"%char /\ x ≠ "h"%char).
  { intros tl x r [= <- _]. by repeat split. }
  unfold tmp_path, best_path, last_path. rewrite !split_head_output.
  rewrite (split_head_pth_app n "/model_best.pth" Hn (Hslash _)).
  rewrite (split_head_pth_app n "/model_last.pth" Hn (Hslash _)).
  change (split_head ".pth" "/model_best.pth") with "/model_best"%string.
  change (split_head ".pth" "/model_last.pth") with "/model_last"%string.
  rewrite !string_app_assoc. split; reflexivity.
Qed.

Lemma prefix_nil (s : string) : String.prefix "" s = true.
Proof. by destruct s. Qed.

(** X5. Where ".pth" first occurs in a destination path, the temporary path
    is what precedes it followed by "_tmp.pth", whatever follows the
    occurrence: beside the destination when the path ends there, elsewhere
    when ".pth" occurs in a folder name. *)
Theorem tmp_path_of_pth (a rest : string) :
  split_head ".pth" a = a ->
  tmp_path (a +:+ ".pth" +:+ rest) = a +:+ "_tmp.pth".
Proof.
  intros Ha. unfold tmp_path.
  rewrite (split_head_pth_app a (".pth" +:+ rest) Ha).
  - replace (split_head ".pth" (".pth" +:+ rest)) with EmptyString.
    + by rewrite string_app_assoc.
    + rewrite !append_cons. cbn [split_head]. rewrite !prefix_cons.
      do 4 (destruct (ascii_dec _ _) as [_|]; [| done]).
      change (EmptyString +:+ rest) with rest. by rewrite prefix_nil.
  - intros x r. rewrite !append_cons. intros [= <- _]. by repeat split.
Qed.

(** ** The running minimum *)

Lemma flt_trans (a b c : pyfloat) :
  flt a b = true -> flt b c = true -> flt a c = true.
Proof.
  unfold flt, SFltb, SFcompare.
  destruct a as [[]|[]| |[] ma ea], b as [[]|[]| |[] mb eb],
    c as [[]|[]| |[] mc ec]; try done;
    change (Pos.compare_cont Eq) with Pos.compare;
    destruct (Z.compare_spec ea eb), (Z.compare_spec eb ec),
      (Z.compare_spec ea ec); try lia; try done;
    destruct (Pos.compare_spec ma mb), (Pos.compare_spec mb mc),
      (Pos.compare_spec ma mc); try lia; done.
Qed.

(** A bound stays a bound when the minimum stays or drops. *)
Lemma flt_bound_weaken (a l1 l2 : pyfloat) :
  flt a l1 = false -> l2 = l1 \/ flt l2 l1 = true -> flt a l2 = false.
Proof.
  intros Ha [-> | Hlt]; [done |].
  destruct (flt a l2) eqn:H; [| done].
  by rewrite (flt_trans _ _ _ H Hlt) in Ha.
Qed.

Lemma flt_drop_trans (l1 l2 l3 : pyfloat) :
  l2 = l1 \/ flt l2 l1 = true -> l3 = l2 \/ flt l3 l2 = true ->
  l3 = l1 \/ flt l3 l1 = true.
Proof.
  intros [-> | H12] [-> | H23]; eauto. right. by eapply flt_trans.
Qed.

Section RunningMinimum.

Context {Weights OptState Batch : Type}.
Variable torch : Torch.
Variable forward : Weights -> R -> Batch -> Weights * LossMap.
Variable optimizer_step :
  R -> Weights -> OptState -> Batch -> Weights * OptState.

Local Abbreviation trainer := (@Trainer Weights OptState).
Local Abbreviation world := (@World Weights OptState).
Local Abbreviation trainStep' := (trainStep torch forward optimizer_step).
Local Abbreviation run_batches' := (run_batches torch forward optimizer_step).

(** The minimum after a step that returns. *)
Lemma trainStep_loss_min (d : Batch) (t t' : trainer) (w w' : world) :
  trainStep' d t w = Ok (t', w') ->
  exists agg,
    loss_sum torch (snd (forward (model t) (model_bn_momentum t) d)) = Some agg /\
    loss_min t' = (if flt agg (loss_min t) then agg else loss_min t).
Proof.
  intros H. destruct (trainStep_Ok_inv _ _ _ _ _ _ _ H) as (sw & agg & Hsw & Ha).
  exists agg. split; [exact Ha |].
  destruct (forward (model t) (model_bn_momentum t) d) as [w1 losses] eqn:Hfw.
  cbn [snd] in Ha.
  rewrite (trainStep_eq _ _ _ d t w sw w1 losses agg Hsw Hfw Ha) in H.
  cbn zeta in H. by injection H as <- _.
Qed.

Lemma trainStep_loss_min_drops (d : Batch) (t t' : trainer) (w w' : world) :
  trainStep' d t w = Ok (t', w') ->
  loss_min t' = loss_min t \/ flt (loss_min t') (loss_min t) = true.
Proof.
  intros H. apply trainStep_loss_min in H as (agg & _ & ->).
  destruct (flt agg (loss_min t)) eqn:E; [by right | by left].
Qed.

Lemma run_batches_loss_min_drops (ds : list Batch) (t t' : trainer)
  (w w' : world) :
  run_batches' ds t w = Ok (t', w') ->
  loss_min t' = loss_min t \/ flt (loss_min t') (loss_min t) = true.
Proof.
  revert t w. induction ds as [|d ds IH]; intros t w H.
  - injection H as <- _. by left.
  - cbn [run_batches] in H.
    destruct (trainStep' d t w) as [[t1 w1]|e] eqn:Hd; [| done].
    cbn [mbind Res_bind] in H. apply IH in H. cbn [loss_min set_step] in H.
    apply trainStep_loss_min_drops in Hd. by eapply flt_drop_trans.
Qed.

(** X6. loss_min is the running minimum of the batch loop: after a run of
    batches that returns it is the value it had before the run or the
    aggregate of one of the batches of the run, which the comparison of line
    168 placed strictly below that value; and the comparison places no
    aggregate of a batch of the run strictly below it. *)
Theorem loss_min_is_running_minimum
  (ds : list Batch) (t t' : trainer) (w w' : world) :
  run_batches torch forward optimizer_step ds t w = Ok (t', w') ->
  (loss_min t' = loss_min t \/
   exists pre d post t_d w_d,
     ds = pre ++ d :: post /\
     run_batches torch forward optimizer_step pre t w = Ok (t_d, w_d) /\
     loss_sum torch (snd (forward (model t_d) (model_bn_momentum t_d) d))
       = Some (loss_min t') /\
     flt (loss_min t') (loss_min t) = true) /\
  (forall pre d post, ds = pre ++ d :: post ->
     exists t_d w_d agg,
       run_batches torch forward optimizer_step pre t w = Ok (t_d, w_d) /\
       loss_sum torch (snd (forward (model t_d) (model_bn_momentum t_d) d))
         = Some agg /\
       flt agg (loss_min t') = false).
Proof.
  intros H. split.
  - revert t w H. induction ds as [|d ds IH]; intros t w H.
    + injection H as <- _. by left.
    + cbn [run_batches] in H.
      destruct (trainStep' d t w) as [[t1 w1]|e] eqn:Hd; [| done].
      cbn [mbind Res_bind] in H.
      destruct (trainStep_loss_min _ _ _ _ _ Hd) as (agg & Hagg & Hlm).
      pose proof (trainStep_loss_min_drops _ _ _ _ _ Hd) as Hdrop.
      apply IH in H as [Hsame | (pre & d' & post & t_d & w_d & -> & Hpre & Ha
                                 & Hlt)];
        cbn [loss_min set_step] in *.
      * rewrite Hsame, Hlm.
        destruct (flt agg (loss_min t)) eqn:E; [right | by left].
        exists [], d, ds, t, w. by repeat split.
      * right. exists (d :: pre), d', post, t_d, w_d. split; [done |].
        split; [cbn [run_batches]; by rewrite Hd |]. split; [exact Ha |].
        destruct Hdrop as [<- | Hdrop]; [exact Hlt |].
        by eapply flt_trans.
  - intros pre d post ->. rewrite run_batches_app in H.
    destruct (run_batches' pre t w) as [[t_d w_d]|e] eqn:Hpre; [| done].
    cbn [mbind Res_bind run_batches] in H.
    destruct (trainStep' d t_d w_d) as [[t1 w1]|e] eqn:Hd; [| done].
    cbn [mbind Res_bind] in H.
    destruct (trainStep_loss_min _ _ _ _ _ Hd) as (agg & Hagg & Hlm).
    exists t_d, w_d, agg. split; [reflexivity |]. split; [exact Hagg |].
    apply run_batches_loss_min_drops in H. cbn [loss_min set_step] in H.
    eapply flt_bound_weaken; [| exact H]. rewrite Hlm.
    destruct (flt agg (loss_min t_d)) eqn:E; [apply flt_irrefl | exact E].
Qed.

End RunningMinimum.

(** ** Whole runs *)

Lemma renames_into_other (p q : string) :
  p ≠ q ->
  renames_into q [OpMkdir p; OpWrite (tmp_path p); OpRemove p;
                  OpRename (tmp_path p) p] = 0%nat.
Proof.
  intros Hne. unfold renames_into. cbn [List.filter].
  by rewrite (proj2 (String.eqb_neq p q) Hne).
Qed.

Section WholeRuns.

Context {Weights OptState Batch : Type}.
Variable torch : Torch.
Variable forward : Weights -> R -> Batch -> Weights * LossMap.
Variable optimizer_step :
  R -> Weights -> OptState -> Batch -> Weights * OptState.

Local Abbreviation trainer := (@Trainer Weights OptState).
Local Abbreviation world := (@World Weights OptState).
Local Abbreviation trainStep' := (trainStep torch forward optimizer_step).
Local Abbreviation run_batches' := (run_batches torch forward optimizer_step).
Local Abbreviation train_epoch' := (train_epoch torch forward optimizer_step).
Local Abbreviation train_epochs' := (train_epochs torch forward optimizer_step).
Local Abbreviation best_in_sync t w :=
  (exists c, files w !! best_path (log_folder_name t) = Some (Complete c) /\
             ck_loss_min c = loss_min t /\
             ck_log_folder_name c = log_folder_name t).

(** The world after a step that returns: as it was, or with one save to the
    best destination of a bundle that carries the new minimum. *)
Lemma trainStep_world (d : Batch) (t t' : trainer) (w w' : world) :
  trainStep' d t w = Ok (t', w') ->
  let best := best_path (log_folder_name t) in
  (w' = w /\ loss_min t' = loss_min t) \/
  (exists c,
     files w' = <[best := Complete c]> (delete (tmp_path best) (files w)) /\
     oplog w' = oplog w ++ [OpMkdir best; OpWrite (tmp_path best);
                            OpRemove best; OpRename (tmp_path best) best] /\
     ck_loss_min c = loss_min t' /\
     ck_log_folder_name c = log_folder_name t).
Proof.
  intros H. destruct (trainStep_Ok_inv _ _ _ _ _ _ _ H) as (sw & agg & Hsw & Ha).
  destruct (forward (model t) (model_bn_momentum t) d) as [w1 losses] eqn:Hfw.
  cbn [snd] in Ha.
  rewrite (trainStep_eq _ _ _ d t w sw w1 losses agg Hsw Hfw Ha) in H.
  cbn zeta in H. injection H as <- <-. cbn zeta.
  destruct (flt agg (loss_min t)); [right | by left].
  eexists. cbn [files oplog loss_min]. by repeat split.
Qed.

Lemma trainStep_best_in_sync (d : Batch) (t t' : trainer) (w w' : world) :
  trainStep' d t w = Ok (t', w') -> best_in_sync t w -> best_in_sync t' w'.
Proof.
  intros H Hsync.
  pose proof (trainStep_frame _ _ _ _ _ _ _ _ H) as (_ & _ & _ & _ & _ & Hlf & _).
  apply trainStep_world in H as [[-> Hlm] | (c & Hf & _ & Hc & Hn)].
  - rewrite Hlf, Hlm. exact Hsync.
  - exists c. rewrite Hlf, Hf, lookup_insert_eq. by repeat split.
Qed.

Lemma run_batches_best_in_sync (ds : list Batch) (t t' : trainer)
  (w w' : world) :
  run_batches' ds t w = Ok (t', w') -> best_in_sync t w -> best_in_sync t' w'.
Proof.
  revert t w. induction ds as [|d ds IH]; intros t w H Hsync.
  - by injection H as <- <-.
  - cbn [run_batches] in H.
    destruct (trainStep' d t w) as [[t1 w1]|e] eqn:Hd; [| done].
    cbn [mbind Res_bind] in H. apply IH in H; [exact H |].
    by apply (trainStep_best_in_sync _ _ _ _ _ Hd) in Hsync.
Qed.

(** A run of batches writes no checkpoint to the last destination. *)
Lemma run_batches_last_renames (ds : list Batch) (t t' : trainer)
  (w w' : world) :
  run_batches' ds t w = Ok (t', w') ->
  renames_into (last_path (log_folder_name t)) (oplog w') =
  renames_into (last_path (log_folder_name t)) (oplog w).
Proof.
  revert t w. induction ds as [|d ds IH]; intros t w H.
  - by injection H as _ <-.
  - cbn [run_batches] in H.
    destruct (trainStep' d t w) as [[t1 w1]|e] eqn:Hd; [| done].
    cbn [mbind Res_bind] in H. apply IH in H.
    pose proof (trainStep_frame _ _ _ _ _ _ _ _ Hd)
      as (_ & _ & _ & _ & _ & Hlf & _).
    cbn [log_folder_name set_step] in H. rewrite Hlf in H. rewrite H.
    apply trainStep_world in Hd as [[-> _] | (c & _ & -> & _)]; [done |].
    rewrite renames_into_app, renames_into_other; [lia |].
    apply best_path_ne_last_path.
Qed.

(** The end of an epoch that returns. *)
Lemma train_epoch_end (ds : list Batch) (t t' : trainer) (w w' : world) :
  train_epoch' ds t w = Ok (t', w') ->
  step t' = (step t + length ds)%nat /\
  scheduler_last_epoch t' = S (scheduler_last_epoch t) /\
  bn_scheduler_last_epoch t' = S (bn_scheduler_last_epoch t) /\
  opt_lr (optimizer t') = (lr * lr_lambda (S (scheduler_last_epoch t)))%R /\
  model_bn_momentum t' = bnm_lambda (S (bn_scheduler_last_epoch t)) /\
  log_folder_name t' = log_folder_name t /\
  renames_into (last_path (log_folder_name t)) (oplog w') =
    S (renames_into (last_path (log_folder_name t)) (oplog w)) /\
  files w' !! last_path (log_folder_name t) =
    Some (Complete (model_dict_of t')) /\
  (best_in_sync t w -> best_in_sync t' w') /\
  exists sw new,
    summary_writer t = Some sw /\
    summary_writer t' = Some (MkWriter (log_dir sw) (scalars sw ++ new)) /\
    entries_of "Lr/lr" new =
      [MkScalar "Lr/lr" (RealVal (opt_lr (optimizer t))) (step t)].
Proof.
  intros H. unfold train_epoch, add_scalar in H.
  destruct (summary_writer t) as [sw|] eqn:Hsw; [| done].
  cbn [mbind Res_bind] in H.
  match type of H with
  | context [run_batches' ds ?t0 w] => set (t0' := t0) in *
  end.
  destruct (run_batches' ds t0' w) as [[t1 w1]|e] eqn:Hrun; [| done].
  cbn [mbind Res_bind] in H. rewrite saveModel_eq in H.
  cbn [mbind Res_bind] in H. injection H as <- <-.
  pose proof (run_batches_frame _ _ _ _ _ _ _ _ Hrun)
    as (Hst & Hlr & Hbn & Hse & Hbe & Hlf & Hw).
  pose proof (run_batches_last_renames _ _ _ _ _ Hrun) as Hren.
  pose proof (run_batches_best_in_sync _ _ _ _ _ Hrun) as Hsync.
  cbn in Hst, Hlr, Hbn, Hse, Hbe, Hlf, Hren.
  cbn -[last_path tmp_path best_path renames_into entries_of].
  rewrite Hse, Hbe, Hst, Hlf.
  repeat (split; [reflexivity |]). split; [| split; [| split]].
  - rewrite renames_into_app, renames_into_save, Hren. lia.
  - by rewrite lookup_insert_eq.
  - intros Hs. destruct (Hsync Hs) as (c & Hc & Hm & Hn).
    cbn [log_folder_name loss_min] in Hm, Hn. rewrite Hlf in Hc.
    exists c. split; [| split; congruence].
    rewrite lookup_insert_ne
      by (intros E; symmetry in E; by apply best_path_ne_last_path in E).
    rewrite lookup_delete_ne; [exact Hc |]. apply tmp_path_ne_best_path.
  - destruct (Hw _ eq_refl) as (new & Hsw1 & Hnew). cbn in Hsw1.
    exists sw. eexists. split; [reflexivity |]. rewrite Hsw1.
    rewrite <- app_assoc. split; [reflexivity |].
    rewrite entries_of_app, Hnew. reflexivity.
Qed.

(** X7. Once the bundle at the best destination carries the trainer's
    loss_min and namespace, it does so after every step and after any number
    of epochs that return: neither a step that finds no new minimum nor the
    save of the last checkpoint breaks the agreement. *)
Theorem best_checkpoint_stays_in_sync (t : trainer) (w : world) :
  (exists c, files w !! best_path (log_folder_name t) = Some (Complete c) /\
             ck_loss_min c = loss_min t /\
             ck_log_folder_name c = log_folder_name t) ->
  (forall d t' w',
     trainStep torch forward optimizer_step d t w = Ok (t', w') ->
     exists c, files w' !! best_path (log_folder_name t') = Some (Complete c) /\
               ck_loss_min c = loss_min t' /\
               ck_log_folder_name c = log_folder_name t') /\
  (forall n epoch dataloader t' w',
     train_epochs torch forward optimizer_step n epoch dataloader t w = Ok (t', w') ->
     exists c, files w' !! best_path (log_folder_name t') = Some (Complete c) /\
               ck_loss_min c = loss_min t' /\
               ck_log_folder_name c = log_folder_name t').
Proof.
  intros Hsync. split.
  - intros d t' w' H. by apply (trainStep_best_in_sync _ _ _ _ _ H).
  - intros n. revert t w Hsync.
    induction n as [|n IH]; intros t w Hsync epoch dataloader t' w' H.
    + by injection H as <- <-.
    + cbn [train_epochs] in H.
      destruct (train_epoch' (dataloader epoch) t w) as [[t1 w1]|e] eqn:He;
        [| done].
      cbn [mbind Res_bind] in H.
      apply train_epoch_end in He as (_ & _ & _ & _ & _ & _ & _ & _ & Hs & _).
      eapply IH; [| exact H]. by apply Hs.
Qed.

(** X8. After [n] epochs that return, the step counter has advanced by the
    number of batches of those epochs, both controllers by [n], the last
    destination has received [n] checkpoints, the namespace is unchanged,
    and (for n > 0) the learning rate and the momentum are the values of
    the two schedules at the advanced indices, the bundle at the last
    destination being the trainer returned. *)
Theorem train_epochs_summary
  (n epoch : nat) (dataloader : nat -> list Batch) (t t' : trainer)
  (w w' : world) :
  train_epochs torch forward optimizer_step n epoch dataloader t w = Ok (t', w') ->
  step t' = (step t + length (concat (map dataloader (seq epoch n))))%nat /\
  scheduler_last_epoch t' = (scheduler_last_epoch t + n)%nat /\
  bn_scheduler_last_epoch t' = (bn_scheduler_last_epoch t + n)%nat /\
  log_folder_name t' = log_folder_name t /\
  renames_into (last_path (log_folder_name t)) (oplog w') =
    (renames_into (last_path (log_folder_name t)) (oplog w) + n)%nat /\
  ((0 < n)%nat ->
   opt_lr (optimizer t') = (lr * lr_lambda (scheduler_last_epoch t + n))%R /\
   model_bn_momentum t' = bnm_lambda (bn_scheduler_last_epoch t + n) /\
   files w' !! last_path (log_folder_name t) =
     Some (Complete (model_dict_of t'))).
Proof.
  revert epoch t w. induction n as [|n IH]; intros epoch t w H.
  - injection H as <- <-. cbn. rewrite !Nat.add_0_r.
    repeat (split; [reflexivity |]). lia.
  - cbn [train_epochs] in H.
    destruct (train_epoch' (dataloader epoch) t w) as [[t1 w1]|e] eqn:He;
      [| done].
    cbn [mbind Res_bind] in H.
    apply train_epoch_end in He
      as (Hst & Hse & Hbe & Hlr & Hbn & Hlf & Hren & Hfile & _ & _).
    pose proof (IH _ _ _ H) as (Hst' & Hse' & Hbe' & Hlf' & Hren' & Hpos).
    rewrite Hlf in Hren', Hpos.
    cbn [seq map concat]. rewrite length_app.
    split; [lia |]. split; [lia |]. split; [lia |].
    split; [congruence |]. split; [lia |]. intros _.
    destruct n as [|n].
    + cbn [train_epochs] in H. injection H as <- <-.
      rewrite !Nat.add_1_r. by rewrite Hlr, Hbn, Hfile.
    + destruct Hpos as (Hlr' & Hbn' & Hfile'); [lia |].
      rewrite Hlr', Hbn', Hfile', Hse, Hbe.
      replace (S (scheduler_last_epoch t) + S n)%nat
        with (scheduler_last_epoch t + S (S n))%nat by lia.
      replace (S (bn_scheduler_last_epoch t) + S n)%nat
        with (bn_scheduler_last_epoch t + S (S n))%nat by lia.
      done.
Qed.

Lemma trainStep_cat_raises (d : Batch) (t : trainer) (w : world) :
  loss_sum torch (snd (forward (model t) (model_bn_momentum t) d)) = None ->
  trainStep' d t w = Raise RuntimeError.
Proof.
  intros H. unfold trainStep.
  destruct (forward (model t) (model_bn_momentum t) d) as [w1 losses].
  cbn [snd] in H. by rewrite H.
Qed.

(** X10. A network that returns no loss term makes the step raise
    RuntimeError, with or without a summary writer and before anything is
    logged or saved; train with a writer raises it at its first batch. *)
Theorem empty_loss_map_raises
  (dataloader : nat -> list Batch) (d : Batch) (ds : list Batch)
  (t : trainer) (w : world) :
  snd (forward (model t) (model_bn_momentum t) d) = [] ->
  trainStep torch forward optimizer_step d t w = Raise RuntimeError /\
  (is_Some (summary_writer t) -> dataloader 0%nat = d :: ds ->
   train torch forward optimizer_step dataloader t w = Raise RuntimeError).
Proof.
  intros Hempty.
  assert (Hnone : loss_sum torch (snd (forward (model t) (model_bn_momentum t) d))
                  = None) by (by rewrite Hempty).
  split; [by apply trainStep_cat_raises |].
  intros [sw Hsw] Hdl. unfold train. destruct total_epoch_pos as [n ->].
  cbn [train_epochs]. unfold train_epoch, add_scalar. rewrite Hsw, Hdl.
  cbn [mbind Res_bind run_batches].
  rewrite trainStep_cat_raises; [done |]. exact Hnone.
Qed.

(** X11. Resuming restarts the schedule. A new trainer that loads a complete
    checkpoint and runs one epoch logs and trains under the learning rate of
    the checkpoint, counts its steps on from the checkpoint's step, writes
    into the checkpoint's namespace, and ends the epoch at controller index
    1 with the learning rate and the momentum of index 1, however many
    epochs the checkpoint had seen. *)
Theorem resume_restarts_schedule
  (w0 : Weights) (o0 : OptState) (now p : string) (c : Checkpoint)
  (ds : list Batch) (w w2 : world) (t2 : trainer) :
  files w !! p = Some (Complete c) ->
  (exists t1,
     loadModel (init w0 o0 now) p w = Ok (true, t1) /\
     train_epoch torch forward optimizer_step ds t1 w = Ok (t2, w2)) ->
  log_folder_name t2 = ck_log_folder_name c /\
  step t2 = (ck_step c + length ds)%nat /\
  scheduler_last_epoch t2 = 1%nat /\
  opt_lr (optimizer t2) = (lr * lr_lambda 1)%R /\
  model_bn_momentum t2 = bnm_lambda 1 /\
  files w2 !! last_path (ck_log_folder_name c) =
    Some (Complete (model_dict_of t2)) /\
  exists new,
    summary_writer t2 =
      Some (MkWriter (log_dir_of (ck_log_folder_name c)) new) /\
    entries_of "Lr/lr" new =
      [MkScalar "Lr/lr" (RealVal (opt_lr (ck_optimizer c))) (ck_step c)].
Proof.
  intros Hfile (t1 & Hload & Hep). unfold loadModel in Hload.
  rewrite Hfile in Hload. cbn in Hload. injection Hload as <-.
  apply train_epoch_end in Hep
    as (Hst & Hse & Hbe & Hlr & Hbn & Hlf & _ & Hf & _ & sw & new & Hsw & Hsw2
        & Hnew).
  cbn in Hst, Hse, Hbe, Hlr, Hbn, Hlf, Hf, Hsw, Hnew.
  injection Hsw as <-. cbn in Hsw2.
  repeat (split; [assumption |]). eexists. split; [exact Hsw2 | exact Hnew].
Qed.

(** X12. The scalars of the batch at position [k] of a run of batches are
    logged under the step index the run started at plus [k]: one for the
    aggregate and one for each loss term. *)
Theorem batch_scalars_step_index
  (pre post : list Batch) (d : Batch) (t t' : trainer) (w w' : world) :
  run_batches torch forward optimizer_step (pre ++ d :: post) t w = Ok (t', w') ->
  exists t_d w_d t_d' w_d' sw new,
    run_batches torch forward optimizer_step pre t w = Ok (t_d, w_d) /\
    trainStep torch forward optimizer_step d t_d w_d = Ok (t_d', w_d') /\
    summary_writer t_d = Some sw /\
    summary_writer t_d' = Some (MkWriter (log_dir sw) (scalars sw ++ new)) /\
    Forall (fun s => global_step s = (step t + length pre)%nat) new /\
    length new =
      S (length (snd (forward (model t_d) (model_bn_momentum t_d) d))).
Proof.
  intros H. rewrite run_batches_app in H.
  destruct (run_batches' pre t w) as [[t_d w_d]|e] eqn:Hpre; [| done].
  cbn [mbind Res_bind run_batches] in H.
  destruct (trainStep' d t_d w_d) as [[t1 w1]|e] eqn:Hd; [| done].
  clear H.
  apply run_batches_frame in Hpre as (Hst & _).
  destruct (trainStep_Ok_inv _ _ _ _ _ _ _ Hd) as (sw & agg & Hsw & Ha).
  destruct (forward (model t_d) (model_bn_momentum t_d) d)
    as [wd losses] eqn:Hfw.
  cbn [snd] in Ha |- *.
  pose proof Hd as Hd'.
  rewrite (trainStep_eq _ _ _ d t_d w_d sw wd losses agg Hsw Hfw Ha) in Hd'.
  cbn zeta in Hd'. injection Hd' as <- _.
  exists t_d, w_d. eexists. exists w1, sw. eexists.
  split; [reflexivity |]. split; [exact Hd |]. split; [exact Hsw |].
  cbn [summary_writer]. split; [reflexivity |]. rewrite <- Hst.
  unfold step_scalars. split.
  - constructor; [reflexivity |]. apply Forall_map, Forall_forall. by intros.
  - rewrite Hfw. cbn [length snd]. f_equal. apply List.length_map.
Qed.

(** X13. The last checkpoint is a resume point: after an epoch that returns,
    loading the last destination of the namespace into any trainer succeeds
    and gives the step, loss_min, namespace, model and optimiser state of
    the trainer at the end of the epoch, the advanced learning rate
    included. *)
Theorem last_checkpoint_resumes
  (ds : list Batch) (t t_end t0 : trainer) (w w_end : world) :
  train_epoch torch forward optimizer_step ds t w = Ok (t_end, w_end) ->
  exists t_r,
    loadModel t0 (last_path (log_folder_name t)) w_end = Ok (true, t_r) /\
    model_dict_of t_r = model_dict_of t_end /\
    step t_r = (step t + length ds)%nat /\
    opt_lr (optimizer t_r) = (lr * lr_lambda (S (scheduler_last_epoch t)))%R /\
    summary_writer t_r = Some (new_writer (log_dir_of (log_folder_name t))).
Proof.
  intros H. apply train_epoch_end in H
    as (Hst & _ & _ & Hlr & _ & Hlf & _ & Hf & _).
  unfold loadModel. rewrite Hf. cbn. eexists. split; [reflexivity |].
  split; [reflexivity |]. cbn. rewrite Hst, Hlr, Hlf. by repeat split.
Qed.

End WholeRuns.

(** ** Further properties of the schedules *)

Lemma Rpower_antitone (a x y : R) :
  (0 < a < 1)%R -> (x <= y)%R -> (Rpower a y <= Rpower a x)%R.
Proof.
  intros [Ha0 Ha1] Hxy. unfold Rpower.
  assert (Hln : (ln a < 0)%R) by (rewrite <- ln_1; by apply ln_increasing).
  destruct (Rle_lt_or_eq_dec _ _ Hxy) as [Hlt | ->]; [| lra].
  left. apply exp_increasing. nra.
Qed.

Lemma Rpower_pos (a x : R) : (0 < Rpower a x)%R.
Proof. unfold Rpower. apply exp_pos. Qed.

(** At a multiple of the decay step the exponent is a whole number. *)
Lemma Rpower_multiple (a : R) (k : nat) :
  (0 < a)%R -> Rpower a (INR (21 * k) / 21) = (a ^ k)%R.
Proof.
  intros Ha. rewrite mult_INR, INR_21.
  replace (21 * INR k / 21)%R with (INR k) by (field; lra).
  by apply Rpower_pow.
Qed.

Lemma INR_div_21_le (e k : nat) :
  (21 * k <= e)%nat -> (INR k <= INR e / 21)%R.
Proof.
  intros H. apply le_INR in H. rewrite mult_INR, INR_21 in H. lra.
Qed.

Lemma INR_div_21_ge (e k : nat) :
  (e <= 21 * k)%nat -> (INR e / 21 <= INR k)%R.
Proof.
  intros H. apply le_INR in H. rewrite mult_INR, INR_21 in H. lra.
Qed.

(** X14. The batch-norm momentum schedule does not increase with the epoch
    index, is at least 0.01 and at most 0.9 everywhere, and is 0.9 at epoch
    index 0. *)
Theorem bnm_lambda_bounds (e e' : nat) :
  (e <= e')%nat ->
  (bnm_lambda e' <= bnm_lambda e)%R /\
  (1 / 100 <= bnm_lambda e <= 9 / 10)%R /\
  bnm_lambda 0 = (9 / 10)%R.
Proof.
  intros Hle. unfold bnm_lambda, bn_decay_step, bn_momentum, bn_decay,
    bn_lowest_decay. rewrite !INR_21.
  assert (Hanti : forall x y : R, (x <= y)%R ->
            (Rpower (5 / 10) y <= Rpower (5 / 10) x)%R)
    by (intros x y; apply Rpower_antitone; lra).
  split; [| split].
  - apply Rle_max_compat_r. apply Rmult_le_compat_l; [lra |].
    apply Hanti. apply le_INR in Hle. lra.
  - split; [apply Rmax_r |]. apply Rmax_lub; [| lra].
    assert (H0 : (Rpower (5 / 10) (INR e / 21) <= Rpower (5 / 10) 0)%R).
    { apply Hanti. pose proof (pos_INR e). lra. }
    rewrite Rpower_O in H0 by lra. lra.
  - cbn [INR]. replace (0 / 21)%R with 0%R by lra.
    rewrite Rpower_O by lra. rewrite Rmult_1_r. apply Rmax_left. lra.
Qed.

(** X15. At an epoch index that is a multiple of 21 the schedules are whole
    powers: the learning-rate multiplier is max(0.76^k, 0.02) and the
    momentum max(0.9 * 0.5^k, 0.01) at index 21 k. *)
Theorem schedules_at_multiples (k : nat) :
  lr_lambda (21 * k) = Rmax ((76 / 100) ^ k) (2 / 100) /\
  bnm_lambda (21 * k) = Rmax (9 / 10 * (5 / 10) ^ k) (1 / 100).
Proof.
  unfold lr_lambda, bnm_lambda, decay_step, bn_decay_step, lr_decay,
    lowest_decay, bn_momentum, bn_decay, bn_lowest_decay.
  rewrite INR_21, !Rpower_multiple by lra. done.
Qed.

Lemma pow_76_15 : ((76 / 100) ^ 15 <= 2 / 100)%R.
Proof. cbn [pow]. lra. Qed.

Lemma pow_76_14 : (2 / 100 < (76 / 100) ^ 14)%R.
Proof. cbn [pow]. lra. Qed.

(** X16. The floors of the schedules. The learning-rate multiplier is above
    0.02 up to epoch index 294 and is exactly 0.02 from index 315 on; the
    momentum is above 0.01 up to index 126 and exactly 0.01 from 147 on. *)
Theorem schedule_floors (e : nat) :
  ((e <= 294)%nat -> (2 / 100 < lr_lambda e)%R) /\
  ((315 <= e)%nat -> lr_lambda e = (2 / 100)%R) /\
  ((e <= 126)%nat -> (1 / 100 < bnm_lambda e)%R) /\
  ((147 <= e)%nat -> bnm_lambda e = (1 / 100)%R).
Proof.
  unfold lr_lambda, bnm_lambda, decay_step, bn_decay_step, lr_decay,
    lowest_decay, bn_momentum, bn_decay, bn_lowest_decay.
  rewrite !INR_21.
  split; [| split; [| split]].
  - intros H. eapply Rlt_le_trans; [| apply Rmax_l].
    eapply Rlt_le_trans; [apply pow_76_14 |].
    rewrite <- Rpower_pow by lra.
    apply Rpower_antitone; [lra |]. by apply (INR_div_21_ge e 14).
  - intros H. apply Rmax_right.
    eapply Rle_trans; [| apply pow_76_15].
    rewrite <- Rpower_pow by lra.
    apply Rpower_antitone; [lra |]. by apply (INR_div_21_le e 15).
  - intros H. eapply Rlt_le_trans; [| apply Rmax_l].
    assert (Hp : ((5 / 10) ^ 6 <= Rpower (5 / 10) (INR e / 21))%R).
    { rewrite <- Rpower_pow by lra.
      apply Rpower_antitone; [lra |]. by apply (INR_div_21_ge e 6). }
    cbn [pow] in Hp. lra.
  - intros H. apply Rmax_right.
    assert (Hp : (Rpower (5 / 10) (INR e / 21) <= (5 / 10) ^ 7)%R).
    { rewrite <- Rpower_pow by lra.
      apply Rpower_antitone; [lra |]. by apply (INR_div_21_le e 7). }
    cbn [pow] in Hp. lra.
Qed.

(** ** Saves that were interrupted *)

Section InterruptedSaves.

Context {Weights OptState : Type}.

Local Abbreviation trainer := (@Trainer Weights OptState).
Local Abbreviation world := (@World Weights OptState).

(** X18. A save repairs an interrupted one: wherever an earlier save to the
    path was interrupted, a later save to the same path returns and leaves
    the files it would have left had the earlier save never started. *)
Theorem saveModel_after_interruption
  (k : nat) (t t2 : trainer) (p : string) (w : world) :
  exists w_k w_r w_direct,
    saveModel_interrupted k t p w = Ok w_k /\
    saveModel t2 p w_k = Ok w_r /\
    saveModel t2 p w = Ok w_direct /\
    files w_r = files w_direct.
Proof.
  assert (Hk : exists w_k, saveModel_interrupted k t p w = Ok w_k /\
             forall q, q ≠ p -> q ≠ tmp_path p ->
                       files w_k !! q = files w !! q).
  { unfold saveModel_interrupted.
    destruct k as [|[|[|[|[|k]]]]].
    - by exists w.
    - eexists. split; [reflexivity | done].
    - eexists. split; [reflexivity |]. intros q Hp Ht. cbn.
      by rewrite lookup_insert_ne.
    - eexists. split; [reflexivity |]. intros q Hp Ht. cbn.
      by rewrite !lookup_insert_ne.
    - eexists. split; [reflexivity |]. intros q Hp Ht. cbn.
      rewrite lookup_delete_ne by done. by rewrite !lookup_insert_ne.
    - rewrite firstn_all2 by (rewrite saveModel_ops_length; lia).
      fold (saveModel t p w). rewrite saveModel_eq. eexists.
      split; [done |]. intros q Hp Ht. cbn.
      rewrite lookup_insert_ne by done. by rewrite lookup_delete_ne. }
  destruct Hk as (w_k & Hk & Hframe). exists w_k.
  rewrite !saveModel_eq. eexists. eexists. split; [exact Hk |].
  split; [reflexivity |]. split; [reflexivity |]. cbn [files].
  apply map_eq. intros q.
  destruct (decide (q = p)) as [->|Hp]; [by rewrite !lookup_insert_eq |].
  rewrite !(lookup_insert_ne _ p) by done.
  destruct (decide (q = tmp_path p)) as [->|Ht];
    [by rewrite !lookup_delete_eq |].
  rewrite !lookup_delete_ne by done. by apply Hframe.
Qed.

(** X19. A load after an interruption between the removal and the rename
    takes the cold-start path: the destination is absent, so loadModel
    returns True and only opens the writer, although the complete new bundle
    lies at the temporary path. *)
Theorem loadModel_in_the_window (t t0 : trainer) (p : string) (w : world) :
  exists w4,
    saveModel_interrupted 4 t p w = Ok w4 /\
    files w4 !! tmp_path p = Some (Complete (model_dict_of t)) /\
    loadModel t0 p w4 = Ok (true, loadSummaryWriter t0).
Proof.
  eexists. split; [reflexivity |]. cbn [files]. split.
  - rewrite lookup_delete_ne
      by (intros E; symmetry in E; by apply tmp_path_ne in E).
    by rewrite lookup_insert_eq.
  - unfold loadModel. cbn [files]. by rewrite lookup_delete_eq.
Qed.

End InterruptedSaves.

(** ** Concrete runs for the further properties *)

Lemma saveModel_frame_witness :
  "other.pth"%string ≠ "model.pth"%string /\
  exists w',
    saveModel Stub.trainer0 "model.pth" Stub.world_old = Ok w' /\
    files w' !! "other.pth" = files Stub.world_old !! "other.pth".
Proof.
  split; [discriminate |].
  apply saveModel_frame; [discriminate |].
  intros E. vm_compute in E. discriminate E.
Defined.

Lemma tmp_path_of_namespace_witness :
  tmp_path (best_path "run0") = "./output/run0/model_best_tmp.pth"%string.
Proof. exact (proj1 (tmp_path_of_namespace "run0" eq_refl)). Defined.

Lemma tmp_path_of_pth_witness :
  tmp_path "ckpt.pth/model.pth" = "ckpt_tmp.pth"%string.
Proof. exact (tmp_path_of_pth "ckpt" "/model.pth" eq_refl). Defined.

Lemma loss_min_is_running_minimum_witness :
  exists t' w',
    run_batches Float32.kernel Stub.forward Stub.optimizer_step
      Stub.batches_5341 Stub.trainer0 Stub.world0 = Ok (t', w') /\
    loss_min t' = fin_of_Z 1 /\
    flt (fin_of_Z 4) (loss_min t') = false.
Proof.
  destruct (run_batches Float32.kernel Stub.forward Stub.optimizer_step
              Stub.batches_5341 Stub.trainer0 Stub.world0)
    as [[t' w']|e] eqn:H.
  - exists t', w'. split; [reflexivity |].
    destruct (loss_min_is_running_minimum
                Float32.kernel Stub.forward Stub.optimizer_step
                Stub.batches_5341 Stub.trainer0 t' Stub.world0 w' H)
      as [_ Hbound].
    destruct (Hbound [Stub.batch_of_loss 5; Stub.batch_of_loss 3]
                (Stub.batch_of_loss 4) [Stub.batch_of_loss 1] eq_refl)
      as (t_d & w_d & agg & _ & Hagg & Hflt).
    injection Hagg as <-. split; [| exact Hflt].
    vm_compute in H. by injection H as <- _.
  - vm_compute in H. discriminate H.
Defined.

Lemma best_checkpoint_stays_in_sync_witness :
  exists t' w' c,
    trainStep Float32.kernel Stub.forward Stub.optimizer_step (Stub.batch_of_loss 3)
      Stub.trainer0
      (MkWorld {[ best_path "run0" := Complete (model_dict_of Stub.trainer0) ]}
               []) = Ok (t', w') /\
    files w' !! best_path (log_folder_name t') = Some (Complete c) /\
    ck_loss_min c = loss_min t'.
Proof.
  set (w := MkWorld {[ best_path "run0" :=
                         Complete (model_dict_of Stub.trainer0) ]} []).
  destruct (trainStep Float32.kernel Stub.forward Stub.optimizer_step (Stub.batch_of_loss 3)
              Stub.trainer0 w) as [[t' w']|e] eqn:H.
  - assert (Hsync : exists c,
              files w !! best_path (log_folder_name Stub.trainer0)
                = Some (Complete c) /\
              ck_loss_min c = loss_min Stub.trainer0 /\
              ck_log_folder_name c = log_folder_name Stub.trainer0).
    { eexists. split; [apply lookup_singleton_eq |]. split; reflexivity. }
    destruct (proj1 (best_checkpoint_stays_in_sync
                       Float32.kernel Stub.forward Stub.optimizer_step Stub.trainer0 w Hsync)
                _ _ _ H) as (c & Hc & Hm & _).
    exists t', w', c. repeat split; assumption.
  - vm_compute in H. discriminate H.
Defined.

Lemma train_epochs_summary_witness :
  exists t' w',
    train_epochs Float32.kernel Stub.forward Stub.optimizer_step 2 0
      (fun _ => Stub.batches_5341) Stub.trainer0 Stub.world0 = Ok (t', w') /\
    step t' = 8%nat /\
    scheduler_last_epoch t' = 2%nat /\
    renames_into (last_path "run0") (oplog w') = 2%nat.
Proof.
  destruct (train_epochs Float32.kernel Stub.forward Stub.optimizer_step 2 0
              (fun _ => Stub.batches_5341) Stub.trainer0 Stub.world0)
    as [[t' w']|e] eqn:H.
  - exists t', w'. split; [reflexivity |].
    destruct (train_epochs_summary Float32.kernel Stub.forward Stub.optimizer_step
                _ _ _ _ _ _ _ H) as (Hst & Hse & _ & _ & Hren & _).
    repeat split; assumption.
  - vm_compute in H. discriminate H.
Defined.

Lemma empty_loss_map_raises_witness :
  trainStep Float32.kernel Stub.forward Stub.optimizer_step [] Stub.trainer0 Stub.world0
  = Raise RuntimeError.
Proof.
  exact (proj1 (empty_loss_map_raises Float32.kernel Stub.forward Stub.optimizer_step
                  (fun _ => [[]]) [] [] Stub.trainer0 Stub.world0 eq_refl)).
Defined.

Lemma resume_restarts_schedule_witness :
  exists t1 t2 w2,
    loadModel (init 0%nat 0%nat "run1") "model.pth" Stub.world_old
      = Ok (true, t1) /\
    train_epoch Float32.kernel Stub.forward Stub.optimizer_step Stub.batches_5341 t1
      Stub.world_old = Ok (t2, w2) /\
    step t2 = 11%nat /\
    scheduler_last_epoch t2 = 1%nat /\
    log_folder_name t2 = "run0"%string.
Proof.
  set (t1 := match loadModel (init 0%nat 0%nat "run1") "model.pth"
                     Stub.world_old with
             | Ok (_, tl) => tl
             | Raise _ => init 0%nat 0%nat "run1"
             end).
  assert (Hload : loadModel (init 0%nat 0%nat "run1") "model.pth"
                    Stub.world_old = Ok (true, t1)) by reflexivity.
  destruct (train_epoch Float32.kernel Stub.forward Stub.optimizer_step Stub.batches_5341
              t1 Stub.world_old) as [[t2 w2]|e] eqn:H.
  - exists t1, t2, w2. split; [exact Hload |]. split; [exact H |].
    destruct (resume_restarts_schedule Float32.kernel Stub.forward Stub.optimizer_step
                0%nat 0%nat "run1" "model.pth" Stub.old_checkpoint
                Stub.batches_5341 Stub.world_old w2 t2
                (lookup_singleton_eq _ _)
                (ex_intro _ t1 (conj Hload H)))
      as (Hlf & Hst & Hse & _).
    repeat split; assumption.
  - vm_compute in H. discriminate H.
Defined.

Lemma batch_scalars_step_index_witness :
  exists t' w' t_d w_d,
    run_batches Float32.kernel Stub.forward Stub.optimizer_step Stub.batches_5341
      Stub.trainer0 Stub.world0 = Ok (t', w') /\
    run_batches Float32.kernel Stub.forward Stub.optimizer_step
      [Stub.batch_of_loss 5; Stub.batch_of_loss 3]
      Stub.trainer0 Stub.world0 = Ok (t_d, w_d).
Proof.
  destruct (run_batches Float32.kernel Stub.forward Stub.optimizer_step Stub.batches_5341
              Stub.trainer0 Stub.world0) as [[t' w']|e] eqn:H.
  - destruct (batch_scalars_step_index Float32.kernel Stub.forward Stub.optimizer_step
                [Stub.batch_of_loss 5; Stub.batch_of_loss 3]
                [Stub.batch_of_loss 1] (Stub.batch_of_loss 4)
                Stub.trainer0 t' Stub.world0 w' H)
      as (t_d & w_d & _ & _ & _ & _ & Hpre & _).
    exists t', w', t_d, w_d. split; [reflexivity | exact Hpre].
  - vm_compute in H. discriminate H.
Defined.

Lemma last_checkpoint_resumes_witness :
  exists t_end w_end t_r,
    train_epoch Float32.kernel Stub.forward Stub.optimizer_step Stub.batches_5341
      Stub.trainer0 Stub.world0 = Ok (t_end, w_end) /\
    loadModel (init 0%nat 0%nat "run1") (last_path "run0") w_end
      = Ok (true, t_r) /\
    step t_r = 4%nat.
Proof.
  destruct (train_epoch Float32.kernel Stub.forward Stub.optimizer_step Stub.batches_5341
              Stub.trainer0 Stub.world0) as [[t_end w_end]|e] eqn:H.
  - destruct (last_checkpoint_resumes Float32.kernel Stub.forward Stub.optimizer_step
                _ _ _ (init 0%nat 0%nat "run1") _ _ H)
      as (t_r & Hl & _ & Hst & _).
    exists t_end, w_end, t_r. split; [reflexivity |].
    split; [exact Hl | exact Hst].
  - vm_compute in H. discriminate H.
Defined.

Lemma bnm_lambda_bounds_witness : (bnm_lambda 21 <= bnm_lambda 0)%R.
Proof. apply (bnm_lambda_bounds 0 21). lia. Defined.

Lemma schedule_floors_witness :
  lr_lambda 315 = (2 / 100)%R /\ bnm_lambda 147 = (1 / 100)%R.
Proof.
  split.
  - apply (proj1 (proj2 (schedule_floors 315))). lia.
  - apply (proj2 (proj2 (proj2 (schedule_floors 147)))). lia.
Defined.
